(** * Qase MCP server: the request dispatcher and the tool marshalling layer

    A shallow embedding of [src/main.py].  The module has two layers:

    - [make_request], the only function that talks to the network.  It checks
      the credential, issues one HTTP call per attempt, retries on HTTP 429
      while [retries < MAX_RETRIES], and turns every failure into the dict
      [{"error": message}].
    - about sixty tools, each of which copies its arguments into a query
      parameter dict or a JSON body dict and ends with
      [return await make_request(...)].

    Python dicts are [gmap string value]; the effects of [make_request]
    (network calls, sleeps, raised exceptions) are threaded through a small
    state-and-exception monad whose state is the trace of events so far.
    [make_request_in] is the function in an arbitrary runtime, where creating
    the HTTP client, the HTTP call, a wait and closing the client can each
    raise; [make_request] is the function against a remote end, in the runtime
    where only the HTTP call can fail. *)

From Equations Require Import Equations.
From stdpp Require Import gmap strings list fin_maps.
From Stdlib Require Import ZArith DecimalString Ascii.

Set Warnings "-register-all".
Open Scope Z_scope.

(** ** Python values *)

(** The values that travel through the module: query parameters, JSON
    bodies and parsed responses.  JSON numbers are integers here; no tool
    sends a fractional number and the dispatcher never inspects a payload. *)
Inductive value :=
| VNone
| VBool (b : bool)
| VInt (n : Z)
| VStr (s : string)
| VList (l : list value)
| VDict (d : gmap string value).

Abbreviation dict := (gmap string value).

(** Conversion of a typed argument to the value stored in a dict. *)
Class ToValue (A : Type) := to_value : A -> value.

#[global] Instance value_to_value : ToValue value := fun v => v.
#[global] Instance bool_to_value : ToValue bool := VBool.
#[global] Instance Z_to_value : ToValue Z := VInt.
#[global] Instance string_to_value : ToValue string := VStr.
#[global] Instance dict_to_value : ToValue dict := VDict.
#[global] Instance list_to_value {A} `{ToValue A} : ToValue (list A) :=
  fun l => VList (List.map to_value l).
#[global] Instance option_to_value {A} `{ToValue A} : ToValue (option A) :=
  fun o => match o with Some a => to_value a | None => VNone end.

(** Python truth testing ([if x:], [if not x:]): [None], [False], zero and
    empty strings and containers are false. *)
Class Truthy (A : Type) := truthy : A -> bool.

#[global] Instance bool_truthy : Truthy bool := fun b => b.
#[global] Instance Z_truthy : Truthy Z := fun n => negb (n =? 0).
#[global] Instance string_truthy : Truthy string :=
  fun s => match s with EmptyString => false | String _ _ => true end.
#[global] Instance list_truthy {A} : Truthy (list A) :=
  fun l => match l with [] => false | _ :: _ => true end.
#[global] Instance dict_truthy : Truthy dict :=
  fun d => negb (bool_decide (d = ∅)).
#[global] Instance option_truthy {A} `{Truthy A} : Truthy (option A) :=
  fun o => match o with Some a => truthy a | None => false end.

(** A parameter declared with a default value ([limit: int = 100]): the
    caller either supplies it or leaves it out. *)
Definition arg {A} (supplied : option A) (default_value : A) : A :=
  match supplied with Some a => a | None => default_value end.

(** ** Strings: [str(int)], [int(str)] and [repr(str)] *)

(** A [string] stands for a Python [str] whose characters have code points
    below 256, one [ascii] per character.  Text with characters above 255
    (a header value with Arabic digits, say) has no counterpart here. *)

(** [str(n)] and [f"{n}"] for an integer. *)
Definition str (n : Z) : string := NilZero.string_of_int (Z.to_int n).

Definition dquote : ascii := ascii_of_nat 34.
Definition squote : ascii := ascii_of_nat 39.
Definition backslash : ascii := ascii_of_nat 92.

(** The whitespace that [int] skips around an ASCII literal: tab, line
    feed, vertical tab, form feed, carriage return and space. *)
Definition is_space (a : ascii) : bool :=
  let n := Z.of_nat (nat_of_ascii a) in
  ((9 <=? n) && (n <=? 13)) || (n =? 32).

(** Before it parses a string that is not ASCII, [int] replaces the
    whitespace characters above 126 by a space: below 256 these are NEL (133)
    and the no-break space (160).  No other character above 126 is a decimal
    digit, so the others stay and make the literal invalid. *)
Definition ascii_space (a : ascii) : ascii :=
  let n := nat_of_ascii a in
  if ((n =? 133) || (n =? 160))%nat then " "%char else a.

Definition is_digit (a : ascii) : bool :=
  let n := Z.of_nat (nat_of_ascii a) in (48 <=? n) && (n <=? 57).

Definition digit_value (a : ascii) : Z := Z.of_nat (nat_of_ascii a) - 48.

Fixpoint lstrip (l : list ascii) : list ascii :=
  match l with
  | a :: l' => if is_space a then lstrip l' else l
  | [] => []
  end.

(** The scan of the digits: the value and the number of digits read, and
    what follows them.  Underscores are skipped; [None] when two underscores
    meet or an underscore ends the digits. *)
Fixpoint scan_digits (acc : Z) (digits : nat) (after_underscore : bool) (l : list ascii)
    : option (Z * nat * list ascii) :=
  match l with
  | a :: l' =>
      if is_digit a then scan_digits (10 * acc + digit_value a) (S digits) false l'
      else if Ascii.eqb a "_" then
        if after_underscore then None else scan_digits acc digits true l'
      else if after_underscore then None else Some (acc, digits, l)
  | [] => if after_underscore then None else Some (acc, digits, [])
  end.

(** The default of [sys.get_int_max_str_digits()]. *)
Definition INT_MAX_STR_DIGITS : nat := 4300.

(** The two [ValueError]s of [int(s)]. *)
Inductive int_error :=
| InvalidLiteral
| TooManyDigits (digits : nat).

(** [int(s)] in base 10, as CPython 3.11 and later parse it: leading
    whitespace, an optional sign, digits with single underscores between
    them, at most [INT_MAX_STR_DIGITS] digits, trailing whitespace.  The
    digit limit is checked as soon as the digits are scanned, before what
    follows them is looked at. *)
Definition int_of_str (s : string) : Z + int_error :=
  let l := lstrip (List.map ascii_space (String.list_ascii_of_string s)) in
  let '(negative, l) :=
    match l with
    | "-"%char :: l' => (true, l')
    | "+"%char :: l' => (false, l')
    | _ => (false, l)
    end in
  match l with
  | "_"%char :: _ => inr InvalidLiteral
  | _ =>
      match scan_digits 0 0 false l with
      | None => inr InvalidLiteral
      | Some (n, digits, rest) =>
          if (INT_MAX_STR_DIGITS <? digits)%nat then inr (TooManyDigits digits)
          else if (digits =? 0)%nat then inr InvalidLiteral
          else if forallb is_space rest then inl (if negative then - n else n)
          else inr InvalidLiteral
      end
  end.

Definition hex_digit (n : nat) : ascii :=
  if (n <? 10)%nat then ascii_of_nat (48 + n) else ascii_of_nat (87 + n).

(** The characters that [repr] writes as an escape because they are not
    printable: the control characters, DEL, 128 to 160 and the soft
    hyphen (173). *)
Definition is_printable (a : ascii) : bool :=
  let n := nat_of_ascii a in
  negb ((n <? 32) || ((127 <=? n) && (n <=? 160)) || (n =? 173))%nat.

Definition escape_char (quote a : ascii) : string :=
  let n := nat_of_ascii a in
  if Ascii.eqb a backslash then String backslash (String backslash EmptyString)
  else if Ascii.eqb a quote then String backslash (String quote EmptyString)
  else if (n =? 10)%nat then String backslash "n"
  else if (n =? 13)%nat then String backslash "r"
  else if (n =? 9)%nat then String backslash "t"
  else if is_printable a then String a EmptyString
  else
    String backslash
      (String "x" (String (hex_digit (n / 16)) (String (hex_digit (n mod 16)) EmptyString))).

Fixpoint escape (quote : ascii) (s : string) : string :=
  match s with
  | EmptyString => EmptyString
  | String a s' => escape_char quote a +:+ escape quote s'
  end.

Fixpoint contains (c : ascii) (s : string) : bool :=
  match s with
  | EmptyString => false
  | String a s' => Ascii.eqb a c || contains c s'
  end.

(** [repr(s)]: single quotes unless the string has a single quote and no
    double quote. *)
Definition repr (s : string) : string :=
  let quote := if contains squote s && negb (contains dquote s) then dquote else squote in
  String quote (escape quote s +:+ String quote EmptyString).

(** [str(e)] for the [ValueError] that [int(s)] raises; the literal is
    formatted with [%.200R], at most 200 characters of its [repr]. *)
Definition int_error_message (s : string) (e : int_error) : string :=
  match e with
  | InvalidLiteral =>
      "invalid literal for int() with base 10: " +:+ String.substring 0 200 (repr s)
  | TooManyDigits digits =>
      "Exceeds the limit (" +:+ str (Z.of_nat INT_MAX_STR_DIGITS) +:+
      " digits) for integer string conversion: value has " +:+ str (Z.of_nat digits) +:+
      " digits; use sys.set_int_max_str_digits() to increase the limit"
  end.

(** [asyncio.sleep] converts a positive delay to a float; an integer from
    [2^1024 - 2^970] on does not fit and the conversion raises
    [OverflowError]. *)
Definition FLOAT_OVERFLOW : Z := 2 ^ 1024 - 2 ^ 970.

(** ** The HTTP client seen from [make_request] *)

(** The keyword arguments of [client.request(...)]. *)
Record request := {
  req_method : string;
  req_url : string;
  req_headers : gmap string string;
  req_params : option dict;
  req_json : option dict;
  req_timeout : Z
}.

(** What [make_request] reads from an [httpx.Response]: the status code,
    the headers (keyed by the name used for the lookup), the body text, and
    the outcome of [response.json()]: the parsed value, or the message of
    the decoding error it raises. *)
Record response := {
  status_code : Z;
  headers : gmap string string;
  text : string;
  json : value + string
}.

(** The exceptions the [try] block can see, by the [except] clause that
    catches them; all are subclasses of [Exception].  [RequestError] and
    [PyException] carry [str(e)]. *)
Inductive exn :=
| HTTPStatusError (r : response)
| RequestError (msg : string)
| PyException (msg : string).

(** What a computation can raise: an exception derived from [Exception],
    which [except Exception] catches, or one derived from [BaseException]
    only ([asyncio.CancelledError], [KeyboardInterrupt], [SystemExit]), which
    no clause of [make_request] catches. *)
Inductive raised :=
| Exc (e : exn)
| BaseExc (name : string).

(** Observable effects, in the order in which they happen. *)
Inductive event :=
| EvRequest (r : request)
| EvSleep (seconds : Z).

(** A computation reads and extends the trace, and returns or raises. *)
Definition M (A : Type) : Type := list event -> (A + raised) * list event.

Definition ret {A} (a : A) : M A := fun t => (inl a, t).

Definition raise {A} (e : exn) : M A := fun t => (inr (Exc e), t).

Definition bind {A B} (m : M A) (k : A -> M B) : M B :=
  fun t =>
    match m t with
    | (inl a, t') => k a t'
    | (inr x, t') => (inr x, t')
    end.

#[global] Instance M_ret : MRet M := @ret.
#[global] Instance M_bind : MBind M := fun A B k m => bind m k.

(** [try: body  except ... as e: handler e], for clauses that together
    catch [Exception]: what is not derived from it passes through. *)
Definition try_except {A} (body : M A) (handler : exn -> M A) : M A :=
  fun t =>
    match body t with
    | (inl a, t') => (inl a, t')
    | (inr (Exc e), t') => handler e t'
    | (inr (BaseExc name), t') => (inr (BaseExc name), t')
    end.

(** [headers.get(name, default)]. *)
Definition headers_get (h : gmap string string) (name : string) (default_value : value) : value :=
  match h !! name with
  | Some s => VStr s
  | None => default_value
  end.

(** The built-in [int(x)]. *)
Definition py_int (x : value) : M Z :=
  match x with
  | VInt n => ret n
  | VBool b => ret (if b then 1 else 0)
  | VStr s =>
      match int_of_str s with
      | inl n => ret n
      | inr e => raise (PyException (int_error_message s e))
      end
  | _ => raise (PyException "int() argument must be a string, a bytes-like object or a real number")
  end.

(** [response.raise_for_status()]: httpx raises [HTTPStatusError] unless
    the status is a success status, 200 to 299. *)
Definition is_success (r : response) : bool :=
  (200 <=? status_code r) && (status_code r <=? 299).

Definition raise_for_status (r : response) : M unit :=
  if is_success r then ret tt else raise (HTTPStatusError r).

(** [response.json()]. *)
Definition response_json (r : response) : M value :=
  match json r with
  | inl v => ret v
  | inr msg => raise (PyException msg)
  end.

(** The world [make_request] runs in, as a function of the history: whether
    [httpx.AsyncClient()] and entering it raise, the outcome of
    [client.request], what is raised into a pending [asyncio.sleep] (a
    cancellation, say), and whether leaving the [async with] block raises.
    An exception that the interpreter raises on its own inside the call (a
    [RecursionError] under a deep stack) shows as one raised by the operation
    in progress. *)
Record runtime := {
  create_client : list event -> option raised;
  send : list event -> request -> response + raised;
  interrupt : list event -> option raised;
  close_client : list event -> option raised
}.

(** ** Configuration *)

Definition QASE_API_BASE_URL : string := "https://api.qase.io/v1".
Definition MAX_RETRIES : Z := 3.
Definition RETRY_DELAY : Z := 60.

(** The dict [{"error": message}] that [make_request] returns for every
    failure; the specification calls it [Failure]. *)
Definition Failure (message : string) : value := VDict {[ "error" := VStr message ]}.

(** ** The dispatcher *)

Section Dispatcher.

(** The token read from the environment when the module is loaded. *)
Variable QASE_API_TOKEN : string.

Variable rt : runtime.

(** [async with httpx.AsyncClient() as client: body].  When the client
    cannot be created the body does not run; leaving the block closes the
    client, also when the body raises, and an exception raised on the way out
    replaces the outcome of the body. *)
Definition async_with_client {A} (body : M A) : M A :=
  fun t =>
    match create_client rt t with
    | Some x => (inr x, t)
    | None =>
        let '(outcome, t') := body t in
        match close_client rt t' with
        | Some x => (inr x, t')
        | None => (outcome, t')
        end
    end.

Definition client_request (r : request) : M response :=
  fun t => (send rt t r, t ++ [EvRequest r]).

(** [await asyncio.sleep(seconds)]: the delay must fit a float; the wait is
    recorded once it is over. *)
Definition asyncio_sleep (seconds : Z) : M unit :=
  fun t =>
    if FLOAT_OVERFLOW <=? seconds then
      (inr (Exc (PyException "int too large to convert to float")), t)
    else
      match interrupt rt t with
      | Some x => (inr x, t)
      | None => (inl tt, t ++ [EvSleep seconds])
      end.

(** The request that every attempt of one logical call sends. *)
Definition build_request (method endpoint : string) (params json_data : option dict) : request :=
  let url := QASE_API_BASE_URL +:+ endpoint in
  let headers : gmap string string :=
    {[ "Token" := QASE_API_TOKEN; "Content-Type" := "application/json"%string ]} in
  {| req_method := method; req_url := url; req_headers := headers;
     req_params := params; req_json := json_data; req_timeout := 30 |}.

(** The three [except] clauses, in source order. *)
Definition handler (e : exn) : M value :=
  match e with
  | HTTPStatusError r =>
      ret (Failure ("HTTP error: " +:+ str (status_code r) +:+ " - " +:+ text r))
  | RequestError msg => ret (Failure ("Request error: " +:+ msg))
  | PyException msg => ret (Failure ("Unexpected error: " +:+ msg))
  end.

(** [make_request], statement by statement.  The [async with] is around
    the [try], as in the source, so what it raises is not caught by this call
    (it is caught by the calling attempt when this call is a retry).  The
    recursion is the source's: the call for [retries + 1] happens only under
    [retries < MAX_RETRIES], so [MAX_RETRIES - retries] decreases. *)
Equations? make_request_in (method endpoint : string) (params json_data : option dict)
    (retries : Z) : M value by wf (Z.to_nat (MAX_RETRIES - retries)) lt :=
make_request_in method endpoint params json_data retries :=
  if negb (truthy QASE_API_TOKEN) then
    ret (Failure "QASE_API_TOKEN environment variable is not set")
  else
    async_with_client
      (try_except
         (response ← client_request (build_request method endpoint params json_data);
          if status_code response =? 429 then
            match Z_lt_dec retries MAX_RETRIES with
            | left _ =>
                retry_after ←
                  py_int (headers_get (headers response) "Retry-After" (VInt RETRY_DELAY));
                asyncio_sleep retry_after;;
                make_request_in method endpoint params json_data (retries + 1)
            | right _ => ret (Failure "Rate limit exceeded after maximum retries")
            end
          else
            raise_for_status response;;
            response_json response)
         handler).
Proof. unfold MAX_RETRIES in *. lia. Qed.

End Dispatcher.

(** The runtime in which nothing but the HTTP call can fail: the client is
    created and closed without error, nothing interrupts a wait, and
    [client.request] returns a response or raises an exception derived from
    [Exception], as the remote end [server] decides from the history. *)
Definition calm (server : list event -> request -> response + exn) : runtime :=
  {| create_client := fun _ => None;
     send := fun t rq =>
       match server t rq with
       | inl r => inl r
       | inr e => inr (Exc e)
       end;
     interrupt := fun _ => None;
     close_client := fun _ => None |}.

(** [make_request] against a remote end, in the calm runtime. *)
Definition make_request (QASE_API_TOKEN : string)
    (server : list event -> request -> response + exn)
    (method endpoint : string) (params json_data : option dict) (retries : Z) : M value :=
  make_request_in QASE_API_TOKEN (calm server) method endpoint params json_data retries.

(** ** The tools *)

(** Every tool ends with [return await make_request(method, endpoint,
    params=..., json_data=...)] and leaves [retries] at its default 0.  A tool
    is embedded as the function from its arguments to the arguments of that
    call; [invoke] then runs the call.

    Parameter types follow the signatures: [x: T] is [T]; [x: T | None = None]
    is [option T]; [x: T = d] is [option T] as well, [None] meaning that the
    caller left the argument out, and the body starts with [arg x d]. *)
Record call := Call {
  call_method : string;
  call_endpoint : string;
  call_params : option dict;
  call_json : option dict
}.

Definition invoke (QASE_API_TOKEN : string) (server : list event -> request -> response + exn)
    (c : call) : M value :=
  make_request QASE_API_TOKEN server
    (call_method c) (call_endpoint c) (call_params c) (call_json c) 0.

(** [if x: d[key] = x] *)
Definition set_if_truthy {A} `{ToValue A} `{Truthy A} (key : string) (x : option A) (d : dict)
    : dict :=
  if truthy x then <[key := to_value x]> d else d.

(** [if x is not None: d[key] = x] *)
Definition set_if_not_none {A} `{ToValue A} (key : string) (x : option A) (d : dict) : dict :=
  match x with
  | Some _ => <[key := to_value x]> d
  | None => d
  end.

(** [{"limit": limit, "offset": offset}] *)
Definition page (limit offset : Z) : dict :=
  {[ "limit" := to_value limit; "offset" := to_value offset ]}.

(** *** Projects *)

Definition qase_list_projects (limit offset : option Z) : call :=
  let limit := arg limit 100 in
  let offset := arg offset 0 in
  let params := page limit offset in
  Call "GET" "/project" (Some params) None.

Definition qase_get_project (project_code : string) : call :=
  Call "GET" ("/project/" +:+ project_code) None None.

Definition qase_create_project (title code : string) (description access : option string) : call :=
  let description := arg description "" in
  let access := arg access "none" in
  let data : dict :=
    {[ "title" := to_value title; "code" := to_value code;
       "description" := to_value description; "access" := to_value access ]} in
  Call "POST" "/project" None (Some data).

(** *** Test cases *)

Definition qase_list_test_cases (project_code : string) (limit offset : option Z)
    (filters_priority filters_type filters_severity filters_automation : option string)
    (filters_suite_id : option Z) (filters_search : option string) : call :=
  let limit := arg limit 100 in
  let offset := arg offset 0 in
  let params := page limit offset in
  let params := set_if_truthy "filters[priority]" filters_priority params in
  let params := set_if_truthy "filters[type]" filters_type params in
  let params := set_if_truthy "filters[severity]" filters_severity params in
  let params := set_if_truthy "filters[automation]" filters_automation params in
  let params := set_if_truthy "filters[suite_id]" filters_suite_id params in
  let params := set_if_truthy "filters[search]" filters_search params in
  Call "GET" ("/case/" +:+ project_code) (Some params) None.

Definition qase_get_test_case (project_code : string) (case_id : Z) : call :=
  Call "GET" ("/case/" +:+ project_code +:+ "/" +:+ str case_id) None None.

Definition qase_create_test_case (project_code title : string)
    (description preconditions postconditions : option string)
    (severity priority type_id behavior : option Z) (automation : option string)
    (suite_id milestone_id : option Z) (tags : option (list string))
    (steps custom_fields : option (list dict)) : call :=
  let description := arg description "" in
  let preconditions := arg preconditions "" in
  let postconditions := arg postconditions "" in
  let severity := arg severity 4 in
  let priority := arg priority 2 in
  let type_id := arg type_id 1 in
  let behavior := arg behavior 2 in
  let automation := arg automation "is-not-automated" in
  let data : dict :=
    {[ "title" := to_value title;
       "description" := to_value description;
       "preconditions" := to_value preconditions;
       "postconditions" := to_value postconditions;
       "severity" := to_value severity;
       "priority" := to_value priority;
       "type" := to_value type_id;
       "behavior" := to_value behavior;
       "automation" := to_value automation ]} in
  let data := set_if_not_none "suite_id" suite_id data in
  let data := set_if_not_none "milestone_id" milestone_id data in
  let data := set_if_truthy "tags" tags data in
  let data := set_if_truthy "steps" steps data in
  let data := set_if_truthy "custom_fields" custom_fields data in
  Call "POST" ("/case/" +:+ project_code) None (Some data).

Definition qase_create_bulk_test_cases (project_code : string) (cases : list dict) : call :=
  let data : dict := {[ "cases" := to_value cases ]} in
  Call "POST" ("/case/" +:+ project_code +:+ "/bulk") None (Some data).

Definition qase_update_test_case (project_code : string) (case_id : Z)
    (title description preconditions postconditions : option string)
    (severity priority type_id behavior : option Z) (automation : option string)
    (suite_id milestone_id : option Z) (tags : option (list string))
    (steps custom_fields : option (list dict)) : call :=
  let data : dict := ∅ in
  let data := set_if_not_none "title" title data in
  let data := set_if_not_none "description" description data in
  let data := set_if_not_none "preconditions" preconditions data in
  let data := set_if_not_none "postconditions" postconditions data in
  let data := set_if_not_none "severity" severity data in
  let data := set_if_not_none "priority" priority data in
  let data := set_if_not_none "type" type_id data in
  let data := set_if_not_none "behavior" behavior data in
  let data := set_if_not_none "automation" automation data in
  let data := set_if_not_none "suite_id" suite_id data in
  let data := set_if_not_none "milestone_id" milestone_id data in
  let data := set_if_not_none "tags" tags data in
  let data := set_if_not_none "steps" steps data in
  let data := set_if_not_none "custom_fields" custom_fields data in
  Call "PATCH" ("/case/" +:+ project_code +:+ "/" +:+ str case_id) None (Some data).

Definition qase_delete_test_case (project_code : string) (case_id : Z) : call :=
  Call "DELETE" ("/case/" +:+ project_code +:+ "/" +:+ str case_id) None None.

(** *** Suites *)

Definition qase_list_suites (project_code : string) (limit offset : option Z)
    (search : option string) : call :=
  let limit := arg limit 100 in
  let offset := arg offset 0 in
  let params := page limit offset in
  let params := set_if_truthy "filters[search]" search params in
  Call "GET" ("/suite/" +:+ project_code) (Some params) None.

Definition qase_get_suite (project_code : string) (suite_id : Z) : call :=
  Call "GET" ("/suite/" +:+ project_code +:+ "/" +:+ str suite_id) None None.

Definition qase_create_suite (project_code title : string)
    (description preconditions : option string) (parent_id : option Z) : call :=
  let description := arg description "" in
  let preconditions := arg preconditions "" in
  let data : dict :=
    {[ "title" := to_value title;
       "description" := to_value description;
       "preconditions" := to_value preconditions ]} in
  let data := set_if_not_none "parent_id" parent_id data in
  Call "POST" ("/suite/" +:+ project_code) None (Some data).

Definition qase_update_suite (project_code : string) (suite_id : Z)
    (title description preconditions : option string) (parent_id : option Z) : call :=
  let data : dict := ∅ in
  let data := set_if_not_none "title" title data in
  let data := set_if_not_none "description" description data in
  let data := set_if_not_none "preconditions" preconditions data in
  let data := set_if_not_none "parent_id" parent_id data in
  Call "PATCH" ("/suite/" +:+ project_code +:+ "/" +:+ str suite_id) None (Some data).

Definition qase_delete_suite (project_code : string) (suite_id : Z) : call :=
  Call "DELETE" ("/suite/" +:+ project_code +:+ "/" +:+ str suite_id) None None.

(** *** Shared steps *)

Definition qase_list_shared_steps (project_code : string) (limit offset : option Z)
    (search : option string) : call :=
  let limit := arg limit 100 in
  let offset := arg offset 0 in
  let params := page limit offset in
  let params := set_if_truthy "filters[search]" search params in
  Call "GET" ("/shared_step/" +:+ project_code) (Some params) None.

Definition qase_get_shared_step (project_code shared_step_hash : string) : call :=
  Call "GET" ("/shared_step/" +:+ project_code +:+ "/" +:+ shared_step_hash) None None.

Definition qase_create_shared_step (project_code title action : string)
    (expected_result data : option string) : call :=
  let expected_result := arg expected_result "" in
  let data := arg data "" in
  let step_data : dict :=
    {[ "title" := to_value title;
       "action" := to_value action;
       "expected_result" := to_value expected_result;
       "data" := to_value data ]} in
  Call "POST" ("/shared_step/" +:+ project_code) None (Some step_data).

Definition qase_update_shared_step (project_code shared_step_hash : string)
    (title action expected_result data : option string) : call :=
  let step_data : dict := ∅ in
  let step_data := set_if_not_none "title" title step_data in
  let step_data := set_if_not_none "action" action step_data in
  let step_data := set_if_not_none "expected_result" expected_result step_data in
  let step_data := set_if_not_none "data" data step_data in
  Call "PATCH" ("/shared_step/" +:+ project_code +:+ "/" +:+ shared_step_hash)
    None (Some step_data).

Definition qase_delete_shared_step (project_code shared_step_hash : string) : call :=
  Call "DELETE" ("/shared_step/" +:+ project_code +:+ "/" +:+ shared_step_hash) None None.

(** *** Shared parameters *)

Definition qase_list_shared_parameters (project_code : string) (limit offset : option Z) : call :=
  let limit := arg limit 100 in
  let offset := arg offset 0 in
  let params := page limit offset in
  Call "GET" ("/shared_parameter/" +:+ project_code) (Some params) None.

Definition qase_get_shared_parameter (project_code : string) (parameter_id : Z) : call :=
  Call "GET" ("/shared_parameter/" +:+ project_code +:+ "/" +:+ str parameter_id) None None.

Definition qase_create_shared_parameter (project_code title : string) (values : list string)
    : call :=
  let data : dict := {[ "title" := to_value title; "values" := to_value values ]} in
  Call "POST" ("/shared_parameter/" +:+ project_code) None (Some data).

Definition qase_update_shared_parameter (project_code : string) (parameter_id : Z)
    (title : option string) (values : option (list string)) : call :=
  let data : dict := ∅ in
  let data := set_if_not_none "title" title data in
  let data := set_if_not_none "values" values data in
  Call "PATCH" ("/shared_parameter/" +:+ project_code +:+ "/" +:+ str parameter_id)
    None (Some data).

Definition qase_delete_shared_parameter (project_code : string) (parameter_id : Z) : call :=
  Call "DELETE" ("/shared_parameter/" +:+ project_code +:+ "/" +:+ str parameter_id) None None.

(** *** Custom fields and system fields *)

Definition qase_list_custom_fields (project_code : string) (limit offset : option Z) : call :=
  let limit := arg limit 100 in
  let offset := arg offset 0 in
  let params := page limit offset in
  Call "GET" ("/custom_field/" +:+ project_code) (Some params) None.

Definition qase_get_custom_field (project_code : string) (field_id : Z) : call :=
  Call "GET" ("/custom_field/" +:+ project_code +:+ "/" +:+ str field_id) None None.

Definition qase_create_custom_field (project_code title : string) (entity field_type : Z)
    (placeholder default_value : option string)
    (is_filterable is_visible is_required : option bool)
    (value : option (list dict)) : call :=
  let placeholder := arg placeholder "" in
  let default_value := arg default_value "" in
  let is_filterable := arg is_filterable false in
  let is_visible := arg is_visible true in
  let is_required := arg is_required false in
  let data : dict :=
    {[ "title" := to_value title;
       "entity" := to_value entity;
       "type" := to_value field_type;
       "placeholder" := to_value placeholder;
       "default_value" := to_value default_value;
       "is_filterable" := to_value is_filterable;
       "is_visible" := to_value is_visible;
       "is_required" := to_value is_required ]} in
  let data := set_if_not_none "value" value data in
  Call "POST" ("/custom_field/" +:+ project_code) None (Some data).

Definition qase_update_custom_field (project_code : string) (field_id : Z)
    (title placeholder default_value : option string)
    (is_filterable is_visible is_required : option bool)
    (value : option (list dict)) : call :=
  let data : dict := ∅ in
  let data := set_if_not_none "title" title data in
  let data := set_if_not_none "placeholder" placeholder data in
  let data := set_if_not_none "default_value" default_value data in
  let data := set_if_not_none "is_filterable" is_filterable data in
  let data := set_if_not_none "is_visible" is_visible data in
  let data := set_if_not_none "is_required" is_required data in
  let data := set_if_not_none "value" value data in
  Call "PATCH" ("/custom_field/" +:+ project_code +:+ "/" +:+ str field_id) None (Some data).

Definition qase_delete_custom_field (project_code : string) (field_id : Z) : call :=
  Call "DELETE" ("/custom_field/" +:+ project_code +:+ "/" +:+ str field_id) None None.

Definition qase_get_system_fields (project_code : string) : call :=
  Call "GET" ("/system_field/" +:+ project_code) None None.

(** *** Test plans *)

Definition qase_list_test_plans (project_code : string) (limit offset : option Z) : call :=
  let limit := arg limit 100 in
  let offset := arg offset 0 in
  let params := page limit offset in
  Call "GET" ("/plan/" +:+ project_code) (Some params) None.

Definition qase_get_test_plan (project_code : string) (plan_id : Z) : call :=
  Call "GET" ("/plan/" +:+ project_code +:+ "/" +:+ str plan_id) None None.

Definition qase_create_test_plan (project_code title : string) (description : option string)
    (cases : option (list Z)) : call :=
  let description := arg description "" in
  let data : dict :=
    {[ "title" := to_value title; "description" := to_value description ]} in
  let data := set_if_truthy "cases" cases data in
  Call "POST" ("/plan/" +:+ project_code) None (Some data).

Definition qase_update_test_plan (project_code : string) (plan_id : Z)
    (title description : option string) (cases : option (list Z)) : call :=
  let data : dict := ∅ in
  let data := set_if_not_none "title" title data in
  let data := set_if_not_none "description" description data in
  let data := set_if_not_none "cases" cases data in
  Call "PATCH" ("/plan/" +:+ project_code +:+ "/" +:+ str plan_id) None (Some data).

Definition qase_delete_test_plan (project_code : string) (plan_id : Z) : call :=
  Call "DELETE" ("/plan/" +:+ project_code +:+ "/" +:+ str plan_id) None None.

(** *** Test runs *)

Definition qase_list_test_runs (project_code : string) (limit offset : option Z)
    (include : option string) : call :=
  let limit := arg limit 100 in
  let offset := arg offset 0 in
  let params := page limit offset in
  let params := set_if_truthy "include" include params in
  Call "GET" ("/run/" +:+ project_code) (Some params) None.

Definition qase_get_test_run (project_code : string) (run_id : Z) (include : option string)
    : call :=
  let params : dict := ∅ in
  let params := set_if_truthy "include" include params in
  Call "GET" ("/run/" +:+ project_code +:+ "/" +:+ str run_id) (Some params) None.

Definition qase_create_test_run (project_code title : string) (description : option string)
    (cases : option (list Z)) (plan_id environment_id milestone_id : option Z)
    (is_autotest : option bool) : call :=
  let description := arg description "" in
  let is_autotest := arg is_autotest false in
  let data : dict :=
    {[ "title" := to_value title;
       "description" := to_value description;
       "is_autotest" := to_value is_autotest ]} in
  let data := set_if_truthy "cases" cases data in
  let data := set_if_not_none "plan_id" plan_id data in
  let data := set_if_not_none "environment_id" environment_id data in
  let data := set_if_not_none "milestone_id" milestone_id data in
  Call "POST" ("/run/" +:+ project_code) None (Some data).

Definition qase_complete_test_run (project_code : string) (run_id : Z) : call :=
  Call "POST" ("/run/" +:+ project_code +:+ "/" +:+ str run_id +:+ "/complete") None None.

Definition qase_delete_test_run (project_code : string) (run_id : Z) : call :=
  Call "DELETE" ("/run/" +:+ project_code +:+ "/" +:+ str run_id) None None.

(** *** Test results *)

Definition qase_list_test_results (project_code : string) (run_id : Z)
    (limit offset : option Z) : call :=
  let limit := arg limit 100 in
  let offset := arg offset 0 in
  let params := page limit offset in
  Call "GET" ("/result/" +:+ project_code +:+ "/" +:+ str run_id) (Some params) None.

Definition qase_get_test_result (project_code : string) (run_id : Z) (result_hash : string)
    : call :=
  Call "GET" ("/result/" +:+ project_code +:+ "/" +:+ str run_id +:+ "/" +:+ result_hash) None None.

Definition qase_create_test_result (project_code : string) (run_id case_id : Z) (status : string)
    (time_ms : option Z) (comment : option string) (defect : option bool)
    (member_id : option Z) (steps : option (list dict))
    (attachments : option (list string)) : call :=
  let comment := arg comment "" in
  let defect := arg defect false in
  let data : dict :=
    {[ "case_id" := to_value case_id;
       "status" := to_value status;
       "comment" := to_value comment;
       "defect" := to_value defect ]} in
  let data := set_if_not_none "time_ms" time_ms data in
  let data := set_if_not_none "member_id" member_id data in
  let data := set_if_truthy "steps" steps data in
  let data := set_if_truthy "attachments" attachments data in
  Call "POST" ("/result/" +:+ project_code +:+ "/" +:+ str run_id) None (Some data).

Definition qase_create_bulk_test_results (project_code : string) (run_id : Z)
    (results : list dict) : call :=
  let data : dict := {[ "results" := to_value results ]} in
  Call "POST" ("/result/" +:+ project_code +:+ "/" +:+ str run_id +:+ "/bulk") None (Some data).

(** *** Defects *)

Definition qase_list_defects (project_code : string) (limit offset : option Z)
    (filters_status : option string) : call :=
  let limit := arg limit 100 in
  let offset := arg offset 0 in
  let params := page limit offset in
  let params := set_if_truthy "filters[status]" filters_status params in
  Call "GET" ("/defect/" +:+ project_code) (Some params) None.

Definition qase_get_defect (project_code : string) (defect_id : Z) : call :=
  Call "GET" ("/defect/" +:+ project_code +:+ "/" +:+ str defect_id) None None.

Definition qase_create_defect (project_code title actual_result : string) (severity : option Z)
    (member_id milestone_id : option Z) (attachments : option (list string)) : call :=
  let severity := arg severity 4 in
  let data : dict :=
    {[ "title" := to_value title;
       "actual_result" := to_value actual_result;
       "severity" := to_value severity ]} in
  let data := set_if_not_none "member_id" member_id data in
  let data := set_if_not_none "milestone_id" milestone_id data in
  let data := set_if_truthy "attachments" attachments data in
  Call "POST" ("/defect/" +:+ project_code) None (Some data).

Definition qase_resolve_defect (project_code : string) (defect_id : Z) : call :=
  Call "PATCH" ("/defect/" +:+ project_code +:+ "/" +:+ str defect_id +:+ "/resolve") None None.

Definition qase_delete_defect (project_code : string) (defect_id : Z) : call :=
  Call "DELETE" ("/defect/" +:+ project_code +:+ "/" +:+ str defect_id) None None.

(** *** Environments *)

Definition qase_list_environments (project_code : string) (limit offset : option Z) : call :=
  let limit := arg limit 100 in
  let offset := arg offset 0 in
  let params := page limit offset in
  Call "GET" ("/environment/" +:+ project_code) (Some params) None.

Definition qase_get_environment (project_code : string) (environment_id : Z) : call :=
  Call "GET" ("/environment/" +:+ project_code +:+ "/" +:+ str environment_id) None None.

Definition qase_create_environment (project_code title : string)
    (description slug host : option string) : call :=
  let description := arg description "" in
  let slug := arg slug "" in
  let host := arg host "" in
  let data : dict :=
    {[ "title" := to_value title;
       "description" := to_value description;
       "slug" := to_value slug;
       "host" := to_value host ]} in
  Call "POST" ("/environment/" +:+ project_code) None (Some data).

Definition qase_delete_environment (project_code : string) (environment_id : Z) : call :=
  Call "DELETE" ("/environment/" +:+ project_code +:+ "/" +:+ str environment_id) None None.

(** *** Milestones *)

Definition qase_list_milestones (project_code : string) (limit offset : option Z) : call :=
  let limit := arg limit 100 in
  let offset := arg offset 0 in
  let params := page limit offset in
  Call "GET" ("/milestone/" +:+ project_code) (Some params) None.

Definition qase_get_milestone (project_code : string) (milestone_id : Z) : call :=
  Call "GET" ("/milestone/" +:+ project_code +:+ "/" +:+ str milestone_id) None None.

Definition qase_create_milestone (project_code title : string)
    (description status due_date : option string) : call :=
  let description := arg description "" in
  let status := arg status "active" in
  let data : dict :=
    {[ "title" := to_value title;
       "description" := to_value description;
       "status" := to_value status ]} in
  let data := set_if_truthy "due_date" due_date data in
  Call "POST" ("/milestone/" +:+ project_code) None (Some data).

Definition qase_delete_milestone (project_code : string) (milestone_id : Z) : call :=
  Call "DELETE" ("/milestone/" +:+ project_code +:+ "/" +:+ str milestone_id) None None.

(** *** Authors, users, search, attachments *)

Definition qase_list_authors (project_code : string) (limit offset : option Z) : call :=
  let limit := arg limit 100 in
  let offset := arg offset 0 in
  let params := page limit offset in
  Call "GET" ("/author/" +:+ project_code) (Some params) None.

Definition qase_list_users (limit offset : option Z) : call :=
  let limit := arg limit 100 in
  let offset := arg offset 0 in
  let params := page limit offset in
  Call "GET" "/user" (Some params) None.

Definition qase_get_user (user_id : Z) : call :=
  Call "GET" ("/user/" +:+ str user_id) None None.

Definition qase_search (project_code query : string) (limit offset : option Z) : call :=
  let limit := arg limit 100 in
  let offset := arg offset 0 in
  let params : dict :=
    {[ "query" := to_value query; "limit" := to_value limit; "offset" := to_value offset ]} in
  Call "GET" ("/search/" +:+ project_code) (Some params) None.

Definition qase_list_attachments (project_code : string) (limit offset : option Z) : call :=
  let limit := arg limit 100 in
  let offset := arg offset 0 in
  let params := page limit offset in
  Call "GET" ("/attachment/" +:+ project_code) (Some params) None.

Definition qase_get_attachment (project_code attachment_hash : string) : call :=
  Call "GET" ("/attachment/" +:+ project_code +:+ "/" +:+ attachment_hash) None None.

Definition qase_delete_attachment (project_code attachment_hash : string) : call :=
  Call "DELETE" ("/attachment/" +:+ project_code +:+ "/" +:+ attachment_hash) None None.

(** ** The tool registry *)

(** One constructor per function registered with [@mcp.tool()], carrying
    the arguments of one invocation. *)
Inductive tool_call :=
| QaseListProjects (limit offset : option Z)
| QaseGetProject (project_code : string)
| QaseCreateProject (title code : string) (description access : option string)
| QaseListTestCases (project_code : string) (limit offset : option Z)
    (filters_priority filters_type filters_severity filters_automation : option string)
    (filters_suite_id : option Z) (filters_search : option string)
| QaseGetTestCase (project_code : string) (case_id : Z)
| QaseCreateTestCase (project_code title : string)
    (description preconditions postconditions : option string)
    (severity priority type_id behavior : option Z) (automation : option string)
    (suite_id milestone_id : option Z) (tags : option (list string))
    (steps custom_fields : option (list dict))
| QaseCreateBulkTestCases (project_code : string) (cases : list dict)
| QaseUpdateTestCase (project_code : string) (case_id : Z)
    (title description preconditions postconditions : option string)
    (severity priority type_id behavior : option Z) (automation : option string)
    (suite_id milestone_id : option Z) (tags : option (list string))
    (steps custom_fields : option (list dict))
| QaseDeleteTestCase (project_code : string) (case_id : Z)
| QaseListSuites (project_code : string) (limit offset : option Z) (search : option string)
| QaseGetSuite (project_code : string) (suite_id : Z)
| QaseCreateSuite (project_code title : string) (description preconditions : option string)
    (parent_id : option Z)
| QaseUpdateSuite (project_code : string) (suite_id : Z)
    (title description preconditions : option string) (parent_id : option Z)
| QaseDeleteSuite (project_code : string) (suite_id : Z)
| QaseListSharedSteps (project_code : string) (limit offset : option Z) (search : option string)
| QaseGetSharedStep (project_code shared_step_hash : string)
| QaseCreateSharedStep (project_code title action : string)
    (expected_result data : option string)
| QaseUpdateSharedStep (project_code shared_step_hash : string)
    (title action expected_result data : option string)
| QaseDeleteSharedStep (project_code shared_step_hash : string)
| QaseListSharedParameters (project_code : string) (limit offset : option Z)
| QaseGetSharedParameter (project_code : string) (parameter_id : Z)
| QaseCreateSharedParameter (project_code title : string) (values : list string)
| QaseUpdateSharedParameter (project_code : string) (parameter_id : Z) (title : option string)
    (values : option (list string))
| QaseDeleteSharedParameter (project_code : string) (parameter_id : Z)
| QaseListCustomFields (project_code : string) (limit offset : option Z)
| QaseGetCustomField (project_code : string) (field_id : Z)
| QaseCreateCustomField (project_code title : string) (entity field_type : Z)
    (placeholder default_value : option string)
    (is_filterable is_visible is_required : option bool) (options : option (list dict))
| QaseUpdateCustomField (project_code : string) (field_id : Z)
    (title placeholder default_value : option string)
    (is_filterable is_visible is_required : option bool) (options : option (list dict))
| QaseDeleteCustomField (project_code : string) (field_id : Z)
| QaseGetSystemFields (project_code : string)
| QaseListTestPlans (project_code : string) (limit offset : option Z)
| QaseGetTestPlan (project_code : string) (plan_id : Z)
| QaseCreateTestPlan (project_code title : string) (description : option string)
    (cases : option (list Z))
| QaseUpdateTestPlan (project_code : string) (plan_id : Z) (title description : option string)
    (cases : option (list Z))
| QaseDeleteTestPlan (project_code : string) (plan_id : Z)
| QaseListTestRuns (project_code : string) (limit offset : option Z) (include : option string)
| QaseGetTestRun (project_code : string) (run_id : Z) (include : option string)
| QaseCreateTestRun (project_code title : string) (description : option string)
    (cases : option (list Z)) (plan_id environment_id milestone_id : option Z)
    (is_autotest : option bool)
| QaseCompleteTestRun (project_code : string) (run_id : Z)
| QaseDeleteTestRun (project_code : string) (run_id : Z)
| QaseListTestResults (project_code : string) (run_id : Z) (limit offset : option Z)
| QaseGetTestResult (project_code : string) (run_id : Z) (result_hash : string)
| QaseCreateTestResult (project_code : string) (run_id case_id : Z) (status : string)
    (time_ms : option Z) (comment : option string) (defect : option bool)
    (member_id : option Z) (steps : option (list dict)) (attachments : option (list string))
| QaseCreateBulkTestResults (project_code : string) (run_id : Z) (results : list dict)
| QaseListDefects (project_code : string) (limit offset : option Z)
    (filters_status : option string)
| QaseGetDefect (project_code : string) (defect_id : Z)
| QaseCreateDefect (project_code title actual_result : string) (severity : option Z)
    (member_id milestone_id : option Z) (attachments : option (list string))
| QaseResolveDefect (project_code : string) (defect_id : Z)
| QaseDeleteDefect (project_code : string) (defect_id : Z)
| QaseListEnvironments (project_code : string) (limit offset : option Z)
| QaseGetEnvironment (project_code : string) (environment_id : Z)
| QaseCreateEnvironment (project_code title : string) (description slug host : option string)
| QaseDeleteEnvironment (project_code : string) (environment_id : Z)
| QaseListMilestones (project_code : string) (limit offset : option Z)
| QaseGetMilestone (project_code : string) (milestone_id : Z)
| QaseCreateMilestone (project_code title : string)
    (description status due_date : option string)
| QaseDeleteMilestone (project_code : string) (milestone_id : Z)
| QaseListAuthors (project_code : string) (limit offset : option Z)
| QaseListUsers (limit offset : option Z)
| QaseGetUser (user_id : Z)
| QaseSearch (project_code query : string) (limit offset : option Z)
| QaseListAttachments (project_code : string) (limit offset : option Z)
| QaseGetAttachment (project_code attachment_hash : string)
| QaseDeleteAttachment (project_code attachment_hash : string).

(** The [make_request] call that an invocation ends with. *)
Definition tool_request (tc : tool_call) : call :=
  match tc with
  | QaseListProjects limit offset =>
      qase_list_projects limit offset
  | QaseGetProject project_code =>
      qase_get_project project_code
  | QaseCreateProject title code description access =>
      qase_create_project title code description access
  | QaseListTestCases project_code limit offset filters_priority filters_type filters_severity
      filters_automation filters_suite_id filters_search =>
      qase_list_test_cases project_code limit offset filters_priority filters_type
          filters_severity filters_automation filters_suite_id filters_search
  | QaseGetTestCase project_code case_id =>
      qase_get_test_case project_code case_id
  | QaseCreateTestCase project_code title description preconditions postconditions severity
      priority type_id behavior automation suite_id milestone_id tags steps custom_fields =>
      qase_create_test_case project_code title description preconditions postconditions
          severity priority type_id behavior automation suite_id milestone_id tags steps
          custom_fields
  | QaseCreateBulkTestCases project_code cases =>
      qase_create_bulk_test_cases project_code cases
  | QaseUpdateTestCase project_code case_id title description preconditions postconditions
      severity priority type_id behavior automation suite_id milestone_id tags steps
      custom_fields =>
      qase_update_test_case project_code case_id title description preconditions postconditions
          severity priority type_id behavior automation suite_id milestone_id tags steps
          custom_fields
  | QaseDeleteTestCase project_code case_id =>
      qase_delete_test_case project_code case_id
  | QaseListSuites project_code limit offset search =>
      qase_list_suites project_code limit offset search
  | QaseGetSuite project_code suite_id =>
      qase_get_suite project_code suite_id
  | QaseCreateSuite project_code title description preconditions parent_id =>
      qase_create_suite project_code title description preconditions parent_id
  | QaseUpdateSuite project_code suite_id title description preconditions parent_id =>
      qase_update_suite project_code suite_id title description preconditions parent_id
  | QaseDeleteSuite project_code suite_id =>
      qase_delete_suite project_code suite_id
  | QaseListSharedSteps project_code limit offset search =>
      qase_list_shared_steps project_code limit offset search
  | QaseGetSharedStep project_code shared_step_hash =>
      qase_get_shared_step project_code shared_step_hash
  | QaseCreateSharedStep project_code title action expected_result data =>
      qase_create_shared_step project_code title action expected_result data
  | QaseUpdateSharedStep project_code shared_step_hash title action expected_result data =>
      qase_update_shared_step project_code shared_step_hash title action expected_result data
  | QaseDeleteSharedStep project_code shared_step_hash =>
      qase_delete_shared_step project_code shared_step_hash
  | QaseListSharedParameters project_code limit offset =>
      qase_list_shared_parameters project_code limit offset
  | QaseGetSharedParameter project_code parameter_id =>
      qase_get_shared_parameter project_code parameter_id
  | QaseCreateSharedParameter project_code title values =>
      qase_create_shared_parameter project_code title values
  | QaseUpdateSharedParameter project_code parameter_id title values =>
      qase_update_shared_parameter project_code parameter_id title values
  | QaseDeleteSharedParameter project_code parameter_id =>
      qase_delete_shared_parameter project_code parameter_id
  | QaseListCustomFields project_code limit offset =>
      qase_list_custom_fields project_code limit offset
  | QaseGetCustomField project_code field_id =>
      qase_get_custom_field project_code field_id
  | QaseCreateCustomField project_code title entity field_type placeholder default_value
      is_filterable is_visible is_required options =>
      qase_create_custom_field project_code title entity field_type placeholder default_value
          is_filterable is_visible is_required options
  | QaseUpdateCustomField project_code field_id title placeholder default_value is_filterable
      is_visible is_required options =>
      qase_update_custom_field project_code field_id title placeholder default_value
          is_filterable is_visible is_required options
  | QaseDeleteCustomField project_code field_id =>
      qase_delete_custom_field project_code field_id
  | QaseGetSystemFields project_code =>
      qase_get_system_fields project_code
  | QaseListTestPlans project_code limit offset =>
      qase_list_test_plans project_code limit offset
  | QaseGetTestPlan project_code plan_id =>
      qase_get_test_plan project_code plan_id
  | QaseCreateTestPlan project_code title description cases =>
      qase_create_test_plan project_code title description cases
  | QaseUpdateTestPlan project_code plan_id title description cases =>
      qase_update_test_plan project_code plan_id title description cases
  | QaseDeleteTestPlan project_code plan_id =>
      qase_delete_test_plan project_code plan_id
  | QaseListTestRuns project_code limit offset include =>
      qase_list_test_runs project_code limit offset include
  | QaseGetTestRun project_code run_id include =>
      qase_get_test_run project_code run_id include
  | QaseCreateTestRun project_code title description cases plan_id environment_id milestone_id
      is_autotest =>
      qase_create_test_run project_code title description cases plan_id environment_id
          milestone_id is_autotest
  | QaseCompleteTestRun project_code run_id =>
      qase_complete_test_run project_code run_id
  | QaseDeleteTestRun project_code run_id =>
      qase_delete_test_run project_code run_id
  | QaseListTestResults project_code run_id limit offset =>
      qase_list_test_results project_code run_id limit offset
  | QaseGetTestResult project_code run_id result_hash =>
      qase_get_test_result project_code run_id result_hash
  | QaseCreateTestResult project_code run_id case_id status time_ms comment defect member_id
      steps attachments =>
      qase_create_test_result project_code run_id case_id status time_ms comment defect
          member_id steps attachments
  | QaseCreateBulkTestResults project_code run_id results =>
      qase_create_bulk_test_results project_code run_id results
  | QaseListDefects project_code limit offset filters_status =>
      qase_list_defects project_code limit offset filters_status
  | QaseGetDefect project_code defect_id =>
      qase_get_defect project_code defect_id
  | QaseCreateDefect project_code title actual_result severity member_id milestone_id
      attachments =>
      qase_create_defect project_code title actual_result severity member_id milestone_id
          attachments
  | QaseResolveDefect project_code defect_id =>
      qase_resolve_defect project_code defect_id
  | QaseDeleteDefect project_code defect_id =>
      qase_delete_defect project_code defect_id
  | QaseListEnvironments project_code limit offset =>
      qase_list_environments project_code limit offset
  | QaseGetEnvironment project_code environment_id =>
      qase_get_environment project_code environment_id
  | QaseCreateEnvironment project_code title description slug host =>
      qase_create_environment project_code title description slug host
  | QaseDeleteEnvironment project_code environment_id =>
      qase_delete_environment project_code environment_id
  | QaseListMilestones project_code limit offset =>
      qase_list_milestones project_code limit offset
  | QaseGetMilestone project_code milestone_id =>
      qase_get_milestone project_code milestone_id
  | QaseCreateMilestone project_code title description status due_date =>
      qase_create_milestone project_code title description status due_date
  | QaseDeleteMilestone project_code milestone_id =>
      qase_delete_milestone project_code milestone_id
  | QaseListAuthors project_code limit offset =>
      qase_list_authors project_code limit offset
  | QaseListUsers limit offset =>
      qase_list_users limit offset
  | QaseGetUser user_id =>
      qase_get_user user_id
  | QaseSearch project_code query limit offset =>
      qase_search project_code query limit offset
  | QaseListAttachments project_code limit offset =>
      qase_list_attachments project_code limit offset
  | QaseGetAttachment project_code attachment_hash =>
      qase_get_attachment project_code attachment_hash
  | QaseDeleteAttachment project_code attachment_hash =>
      qase_delete_attachment project_code attachment_hash
  end.

(** A query parameter of the outgoing request. *)
Definition param (c : call) (key : string) : option value :=
  d ← call_params c; d !! key.

(** A field of the outgoing JSON body. *)
Definition body_field (c : call) (key : string) : option value :=
  d ← call_json c; d !! key.

(** [unset key x] is [[key]] when the argument [x] is [None]. *)
Definition unset {A} (key : string) (x : option A) : list string :=
  match x with
  | None => [key]
  | Some _ => []
  end.

(** The fields of an invocation whose argument, declared [x: T | None =
    None], is [None]: each such argument with the key its tool stores it
    under. *)
Definition none_fields (tc : tool_call) : list string :=
  match tc with
  | QaseListTestCases _ _ _ filters_priority filters_type filters_severity
      filters_automation filters_suite_id filters_search =>
      unset "filters[priority]" filters_priority ++
      unset "filters[type]" filters_type ++
      unset "filters[severity]" filters_severity ++
      unset "filters[automation]" filters_automation ++
      unset "filters[suite_id]" filters_suite_id ++
      unset "filters[search]" filters_search
  | QaseCreateTestCase _ _ _ _ _ _ _ _ _ _ suite_id milestone_id tags steps custom_fields =>
      unset "suite_id" suite_id ++
      unset "milestone_id" milestone_id ++
      unset "tags" tags ++
      unset "steps" steps ++
      unset "custom_fields" custom_fields
  | QaseUpdateTestCase _ _ title description preconditions postconditions severity priority
      type_id behavior automation suite_id milestone_id tags steps custom_fields =>
      unset "title" title ++
      unset "description" description ++
      unset "preconditions" preconditions ++
      unset "postconditions" postconditions ++
      unset "severity" severity ++
      unset "priority" priority ++
      unset "type" type_id ++
      unset "behavior" behavior ++
      unset "automation" automation ++
      unset "suite_id" suite_id ++
      unset "milestone_id" milestone_id ++
      unset "tags" tags ++
      unset "steps" steps ++
      unset "custom_fields" custom_fields
  | QaseListSuites _ _ _ search =>
      unset "filters[search]" search
  | QaseCreateSuite _ _ _ _ parent_id =>
      unset "parent_id" parent_id
  | QaseUpdateSuite _ _ title description preconditions parent_id =>
      unset "title" title ++
      unset "description" description ++
      unset "preconditions" preconditions ++
      unset "parent_id" parent_id
  | QaseListSharedSteps _ _ _ search =>
      unset "filters[search]" search
  | QaseUpdateSharedStep _ _ title action expected_result data =>
      unset "title" title ++
      unset "action" action ++
      unset "expected_result" expected_result ++
      unset "data" data
  | QaseUpdateSharedParameter _ _ title values =>
      unset "title" title ++
      unset "values" values
  | QaseCreateCustomField _ _ _ _ _ _ _ _ _ options =>
      unset "value" options
  | QaseUpdateCustomField _ _ title placeholder default_value is_filterable is_visible
      is_required options =>
      unset "title" title ++
      unset "placeholder" placeholder ++
      unset "default_value" default_value ++
      unset "is_filterable" is_filterable ++
      unset "is_visible" is_visible ++
      unset "is_required" is_required ++
      unset "value" options
  | QaseCreateTestPlan _ _ _ cases =>
      unset "cases" cases
  | QaseUpdateTestPlan _ _ title description cases =>
      unset "title" title ++
      unset "description" description ++
      unset "cases" cases
  | QaseListTestRuns _ _ _ include =>
      unset "include" include
  | QaseGetTestRun _ _ include =>
      unset "include" include
  | QaseCreateTestRun _ _ _ cases plan_id environment_id milestone_id _ =>
      unset "cases" cases ++
      unset "plan_id" plan_id ++
      unset "environment_id" environment_id ++
      unset "milestone_id" milestone_id
  | QaseCreateTestResult _ _ _ _ time_ms _ _ member_id steps attachments =>
      unset "time_ms" time_ms ++
      unset "member_id" member_id ++
      unset "steps" steps ++
      unset "attachments" attachments
  | QaseListDefects _ _ _ filters_status =>
      unset "filters[status]" filters_status
  | QaseCreateDefect _ _ _ _ member_id milestone_id attachments =>
      unset "member_id" member_id ++
      unset "milestone_id" milestone_id ++
      unset "attachments" attachments
  | QaseCreateMilestone _ _ _ _ due_date =>
      unset "due_date" due_date
  | _ => []
  end.

(** [sent_filter name x]: the filter argument [x], when it passes its
    truth test, with the bracketed key for [name]. *)
Definition sent_filter {A} `{ToValue A} `{Truthy A} (name : string) (x : option A)
    : list (string * value) :=
  if truthy x then [("filters[" +:+ name +:+ "]", to_value x)] else [].

(** The filter arguments of an invocation that pass their truth test. *)
Definition sent_filters (tc : tool_call) : list (string * value) :=
  match tc with
  | QaseListTestCases _ _ _ filters_priority filters_type filters_severity
      filters_automation filters_suite_id filters_search =>
      sent_filter "priority" filters_priority ++
      sent_filter "type" filters_type ++
      sent_filter "severity" filters_severity ++
      sent_filter "automation" filters_automation ++
      sent_filter "suite_id" filters_suite_id ++
      sent_filter "search" filters_search
  | QaseListSuites _ _ _ search =>
      sent_filter "search" search
  | QaseListSharedSteps _ _ _ search =>
      sent_filter "search" search
  | QaseListDefects _ _ _ filters_status =>
      sent_filter "status" filters_status
  | _ => []
  end.

(** ** Tables of the guarded fields *)

(** [given key x]: the argument [x] of a field stored under
    [if x is not None:], with its key, when it is not [None]. *)
Definition given {A} `{ToValue A} (key : string) (x : option A) : list (string * value) :=
  match x with
  | Some a => [(key, to_value a)]
  | None => []
  end.

(** The arguments of an invocation whose field is stored under
    [if x is not None:] and that are not [None]. *)
Definition given_fields (tc : tool_call) : list (string * value) :=
  match tc with
  | QaseCreateTestCase _ _ _ _ _ _ _ _ _ _ suite_id milestone_id _ _ _ =>
      given "suite_id" suite_id ++
      given "milestone_id" milestone_id
  | QaseUpdateTestCase _ _ title description preconditions postconditions severity priority
      type_id behavior automation suite_id milestone_id tags steps custom_fields =>
      given "title" title ++
      given "description" description ++
      given "preconditions" preconditions ++
      given "postconditions" postconditions ++
      given "severity" severity ++
      given "priority" priority ++
      given "type" type_id ++
      given "behavior" behavior ++
      given "automation" automation ++
      given "suite_id" suite_id ++
      given "milestone_id" milestone_id ++
      given "tags" tags ++
      given "steps" steps ++
      given "custom_fields" custom_fields
  | QaseCreateSuite _ _ _ _ parent_id =>
      given "parent_id" parent_id
  | QaseUpdateSuite _ _ title description preconditions parent_id =>
      given "title" title ++
      given "description" description ++
      given "preconditions" preconditions ++
      given "parent_id" parent_id
  | QaseUpdateSharedStep _ _ title action expected_result data =>
      given "title" title ++
      given "action" action ++
      given "expected_result" expected_result ++
      given "data" data
  | QaseUpdateSharedParameter _ _ title values =>
      given "title" title ++
      given "values" values
  | QaseCreateCustomField _ _ _ _ _ _ _ _ _ options =>
      given "value" options
  | QaseUpdateCustomField _ _ title placeholder default_value is_filterable is_visible
      is_required options =>
      given "title" title ++
      given "placeholder" placeholder ++
      given "default_value" default_value ++
      given "is_filterable" is_filterable ++
      given "is_visible" is_visible ++
      given "is_required" is_required ++
      given "value" options
  | QaseUpdateTestPlan _ _ title description cases =>
      given "title" title ++
      given "description" description ++
      given "cases" cases
  | QaseCreateTestRun _ _ _ _ plan_id environment_id milestone_id _ =>
      given "plan_id" plan_id ++
      given "environment_id" environment_id ++
      given "milestone_id" milestone_id
  | QaseCreateTestResult _ _ _ _ time_ms _ _ member_id _ _ =>
      given "time_ms" time_ms ++
      given "member_id" member_id
  | QaseCreateDefect _ _ _ _ member_id milestone_id _ =>
      given "member_id" member_id ++
      given "milestone_id" milestone_id
  | _ => []
  end.

(** [tested key x]: the field stored under the truth test [if x:], with
    what the test lets through. *)
Definition tested {A} `{ToValue A} `{Truthy A} (key : string) (x : option A)
    : list (string * option value) :=
  [(key, if truthy x then Some (to_value x) else None)].

(** The arguments of an invocation whose field is stored under a truth
    test [if x:]. *)
Definition tested_fields (tc : tool_call) : list (string * option value) :=
  match tc with
  | QaseListTestCases _ _ _ filters_priority filters_type filters_severity
      filters_automation filters_suite_id filters_search =>
      tested "filters[priority]" filters_priority ++
      tested "filters[type]" filters_type ++
      tested "filters[severity]" filters_severity ++
      tested "filters[automation]" filters_automation ++
      tested "filters[suite_id]" filters_suite_id ++
      tested "filters[search]" filters_search
  | QaseCreateTestCase _ _ _ _ _ _ _ _ _ _ _ _ tags steps custom_fields =>
      tested "tags" tags ++
      tested "steps" steps ++
      tested "custom_fields" custom_fields
  | QaseListSuites _ _ _ search =>
      tested "filters[search]" search
  | QaseListSharedSteps _ _ _ search =>
      tested "filters[search]" search
  | QaseCreateTestPlan _ _ _ cases =>
      tested "cases" cases
  | QaseListTestRuns _ _ _ include =>
      tested "include" include
  | QaseGetTestRun _ _ include =>
      tested "include" include
  | QaseCreateTestRun _ _ _ cases _ _ _ _ =>
      tested "cases" cases
  | QaseCreateTestResult _ _ _ _ _ _ _ _ steps attachments =>
      tested "steps" steps ++
      tested "attachments" attachments
  | QaseListDefects _ _ _ filters_status =>
      tested "filters[status]" filters_status
  | QaseCreateDefect _ _ _ _ _ _ attachments =>
      tested "attachments" attachments
  | QaseCreateMilestone _ _ _ _ due_date =>
      tested "due_date" due_date
  | _ => []
  end.

(** The [limit] and [offset] arguments of the tools that build
    [{"limit": limit, "offset": offset}]. *)
Definition page_args (tc : tool_call) : option (option Z * option Z) :=
  match tc with
  | QaseListProjects limit offset => Some (limit, offset)
  | QaseListTestCases _ limit offset _ _ _ _ _ _ => Some (limit, offset)
  | QaseListSuites _ limit offset _ => Some (limit, offset)
  | QaseListSharedSteps _ limit offset _ => Some (limit, offset)
  | QaseListSharedParameters _ limit offset => Some (limit, offset)
  | QaseListCustomFields _ limit offset => Some (limit, offset)
  | QaseListTestPlans _ limit offset => Some (limit, offset)
  | QaseListTestRuns _ limit offset _ => Some (limit, offset)
  | QaseListTestResults _ _ limit offset => Some (limit, offset)
  | QaseListDefects _ limit offset _ => Some (limit, offset)
  | QaseListEnvironments _ limit offset => Some (limit, offset)
  | QaseListMilestones _ limit offset => Some (limit, offset)
  | QaseListAuthors _ limit offset => Some (limit, offset)
  | QaseListUsers limit offset => Some (limit, offset)
  | QaseSearch _ _ limit offset => Some (limit, offset)
  | QaseListAttachments _ limit offset => Some (limit, offset)
  | _ => None
  end.

(** The value a key has in the outgoing request, in the query parameters
    or in the JSON body. *)
Definition field (c : call) (key : string) : option value :=
  match param c key with
  | Some v => Some v
  | None => body_field c key
  end.

(** [os.environ.get(name, default)]. *)
Definition environ_get (environ : gmap string string) (name default_value : string) : string :=
  match environ !! name with
  | Some v => v
  | None => default_value
  end.

(** The module-level [QASE_API_TOKEN = os.environ.get("QASE_API_TOKEN", "")]. *)
Definition load_token (environ : gmap string string) : string :=
  environ_get environ "QASE_API_TOKEN" "".

(** ** Derived descriptions used in the statements *)

(** A tool invocation in a given runtime. *)
Definition invoke_in (QASE_API_TOKEN : string) (rt : runtime) (c : call) : M value :=
  make_request_in QASE_API_TOKEN rt
    (call_method c) (call_endpoint c) (call_params c) (call_json c) 0.

(** The result of [int(response.headers.get("Retry-After", RETRY_DELAY))]:
    the number of seconds, or the text of the [ValueError] that [int]
    raises. *)
Definition retry_delay (r : response) : Z + string :=
  match headers r !! "Retry-After" with
  | Some s =>
      match int_of_str s with
      | inl n => inl n
      | inr e => inr (int_error_message s e)
      end
  | None => inl RETRY_DELAY
  end.

(** "The duration indicated by Retry-After when present, else the default":
    the header is absent and the delay is the default, or the header is a
    literal that [int] reads as the delay. *)
Definition indicated_delay (r : response) (d : Z) : Prop :=
  match headers r !! "Retry-After" with
  | Some s => int_of_str s = inl d
  | None => d = RETRY_DELAY
  end.

(** A delay that [asyncio.sleep] accepts. *)
Definition sleepable (d : Z) : Prop := d < FLOAT_OVERFLOW.

(** The message of a failure dict, as a caller reads it:
    [result["error"]]. *)
Definition error_message (v : value) : option string :=
  match v with
  | VDict d => match d !! "error" with Some (VStr s) => Some s | _ => None end
  | _ => None
  end.

(** The events of a logical call that waits [delays] between its attempts:
    the same request before and after every wait. *)
Definition retry_trace (q : request) (delays : list Z) : list event :=
  flat_map (fun d => [EvRequest q; EvSleep d]) delays ++ [EvRequest q].

(** The events of [delays] rate-limited attempts: each the request and the
    wait that follows it. *)
Definition waits (rq : request) (delays : list Z) : list event :=
  flat_map (fun d => [EvRequest rq; EvSleep d]) delays.

(** [throttled server rq t delays]: from the history [t] on, the server
    answers the request with HTTP 429 as many times as there are delays, each
    time indicating the next delay, a delay that [asyncio.sleep] accepts.
    Only the histories that the call visits are constrained. *)
Fixpoint throttled (server : list event -> request -> response + exn) (rq : request)
    (t : list event) (delays : list Z) : Prop :=
  match delays with
  | [] => True
  | d :: delays' =>
      (exists r, server t rq = inl r /\ status_code r = 429 /\ indicated_delay r d) /\
      sleepable d /\
      throttled server rq (t ++ [EvRequest rq; EvSleep d]) delays'
  end.

(** The same in a runtime: each of the attempts gets its client, is answered
    with HTTP 429 and a delay that can be waited, and the wait is not
    interrupted. *)
Fixpoint throttled_in (rt : runtime) (rq : request) (t : list event) (delays : list Z) : Prop :=
  match delays with
  | [] => True
  | d :: delays' =>
      create_client rt t = None /\
      (exists r, send rt t rq = inl r /\ status_code r = 429 /\ indicated_delay r d) /\
      sleepable d /\
      interrupt rt (t ++ [EvRequest rq]) = None /\
      throttled_in rt rq (t ++ [EvRequest rq; EvSleep d]) delays'
  end.

(** What the [except] clauses make of the outcome of the [try] block: an
    exception derived from [Exception] becomes a failure value. *)
Definition caught (o : (value + raised) * list event) : (value + raised) * list event :=
  match o with
  | (inr (Exc e), t') => handler e t'
  | _ => o
  end.

(** What leaving the [async with] block makes of the outcome of its body. *)
Definition closing (rt : runtime) (o : (value + raised) * list event)
    : (value + raised) * list event :=
  match close_client rt (snd o) with
  | Some x => (inr x, snd o)
  | None => o
  end.

(** What an attempt that retried makes of the outcome of the retry, which is
    the last statement of its [try] block: the [except] clauses apply to it,
    and then the [async with] closes the client. *)
Definition unwind (rt : runtime) (o : (value + raised) * list event)
    : (value + raised) * list event :=
  closing rt (caught o).

(** [answered rt rq t' v]: the last event of [t'] is the request [rq], the
    response to it had a success status, and [v] is its parsed body. *)
Definition answered (rt : runtime) (rq : request) (t' : list event) (v : value) : Prop :=
  exists h r,
    t' = h ++ [EvRequest rq] /\ send rt h rq = inl r /\
    is_success r = true /\ json r = inl v.

(** What every request of a logical call looks like. *)
Definition authenticated (token method endpoint : string) (params json_data : option dict)
    (ev : event) : Prop :=
  match ev with
  | EvSleep _ => True
  | EvRequest rq =>
      token ≠ "" /\
      req_headers rq !! "Token" = Some token /\
      req_headers rq !! "Content-Type" = Some "application/json" /\
      req_url rq = QASE_API_BASE_URL +:+ endpoint /\
      req_method rq = method /\
      req_params rq = params /\
      req_json rq = json_data /\
      req_timeout rq = 30
  end.

(** The values a logical call can end with: the five kinds of failure, all
    of the shape [{"error": message}], and the parsed body of a response
    with a success status. *)
Inductive terminal : value -> Prop :=
| ConfigurationError :
    terminal (Failure "QASE_API_TOKEN environment variable is not set")
| RateLimitExhausted :
    terminal (Failure "Rate limit exceeded after maximum retries")
| HttpError (r : response) :
    terminal (Failure ("HTTP error: " +:+ str (status_code r) +:+ " - " +:+ text r))
| TransportError (msg : string) :
    terminal (Failure ("Request error: " +:+ msg))
| UnexpectedError (msg : string) :
    terminal (Failure ("Unexpected error: " +:+ msg))
| Success (r : response) (v : value) :
    is_success r = true -> json r = inl v -> terminal v.

(** The messages of the five kinds of failure. *)
Inductive failure_message : string -> Prop :=
| ConfigurationMessage :
    failure_message "QASE_API_TOKEN environment variable is not set"
| RateLimitMessage :
    failure_message "Rate limit exceeded after maximum retries"
| HttpMessage (r : response) :
    failure_message ("HTTP error: " +:+ str (status_code r) +:+ " - " +:+ text r)
| TransportMessage (msg : string) :
    failure_message ("Request error: " +:+ msg)
| UnexpectedMessage (msg : string) :
    failure_message ("Unexpected error: " +:+ msg).

(** The outcome of a [try] block with its [except] clauses is settled: a
    failure value, the parsed body of a success response, or an exception
    that is not derived from [Exception]. *)
Definition settled (rt : runtime) (rq : request) (o : (value + raised) * list event) : Prop :=
  match o with
  | (inl v, t') => (exists msg, failure_message msg /\ v = Failure msg) \/ answered rt rq t' v
  | (inr x, _) => exists name, x = BaseExc name
  end.

(** The outcome of a call entered at the history [t] is contained: a
    settled value, or an exception that the [try] block cannot catch: the
    one raised when the client of this call was created or closed, or one
    that is not derived from [Exception]. *)
Definition contained (rt : runtime) (rq : request) (t : list event)
    (o : (value + raised) * list event) : Prop :=
  match o with
  | (inl v, t') => (exists msg, failure_message msg /\ v = Failure msg) \/ answered rt rq t' v
  | (inr x, t') =>
      (create_client rt t = Some x /\ t' = t) \/
      close_client rt t' = Some x \/
      exists name, x = BaseExc name
  end.

(** The events of an attempt that does not retry: the request, unless the
    token is missing or the client cannot be created. *)
Definition last_events (QASE_API_TOKEN : string) (rt : runtime) (rq : request)
    (t : list event) : list event :=
  if truthy QASE_API_TOKEN then
    match create_client rt t with
    | None => [EvRequest rq]
    | Some _ => []
    end
  else [].

(** ** Servers and responses used in the examples *)

(** The number of network calls in a trace. *)
Fixpoint count_requests (t : list event) : nat :=
  match t with
  | [] => 0
  | EvRequest _ :: t' => S (count_requests t')
  | EvSleep _ :: t' => count_requests t'
  end.

(** A server that gives the same outcome to every request. *)
Definition always (o : response + exn) : list event -> request -> response + exn :=
  fun _ _ => o.

(** A server that answers the n-th network call of the history with the
    n-th outcome of a script, and with [last] once the script is used up. *)
Definition scripted (script : list (response + exn)) (last : response + exn)
    : list event -> request -> response + exn :=
  fun t _ => nth (count_requests t) script last.

Definition json_error : string := "Expecting value: line 1 column 1 (char 0)".

(** HTTP 429, with or without a [Retry-After] header. *)
Definition too_many_requests (retry_after : option string) : response :=
  {| status_code := 429;
     headers := match retry_after with
                | Some s => {[ "Retry-After" := s ]}
                | None => ∅
                end;
     text := "Too Many Requests";
     json := inr json_error |}.

(** HTTP 200 with the body [{"result": {"id": 1}}]. *)
Definition created : response :=
  {| status_code := 200;
     headers := ∅;
     text := let dq := String dquote EmptyString in
             "{" +:+ dq +:+ "result" +:+ dq +:+ ":{" +:+ dq +:+ "id" +:+ dq +:+ ":1}}";
     json := inl (VDict {[ "result" := VDict {[ "id" := VInt 1 ]} ]}) |}.

(** HTTP 200 with an HTML page instead of JSON. *)
Definition html_page : response :=
  {| status_code := 200;
     headers := ∅;
     text := "<html></html>";
     json := inr json_error |}.

(** HTTP 404. *)
Definition not_found : response :=
  {| status_code := 404;
     headers := ∅;
     text := "Not Found";
     json := inr json_error |}.

(** A runtime in which the task is cancelled while the HTTP call is
    pending: [client.request] raises [asyncio.CancelledError]. *)
Definition cancelled_in_flight : runtime :=
  {| create_client := fun _ => None;
     send := fun _ _ => inr (BaseExc "CancelledError");
     interrupt := fun _ => None;
     close_client := fun _ => None |}.


(** A runtime in which no client can be created: [httpx.AsyncClient()]
    rejects the proxy named by the environment ([ALL_PROXY] with an [ftp]
    URL) and raises [ValueError]. *)
Definition no_client : runtime :=
  {| create_client := fun _ =>
       Some (Exc (PyException "Unknown scheme for proxy URL URL('ftp://proxy.invalid:1')"));
     send := fun _ _ => inl created;
     interrupt := fun _ => None;
     close_client := fun _ => None |}.

(** A runtime in which the first client is created and the server answers
    429; the client of the retry cannot be created. *)
Definition no_second_client : runtime :=
  {| create_client := fun t =>
       match t with
       | [] => None
       | _ :: _ => Some (Exc (PyException "Too many open files"))
       end;
     send := fun _ _ => inl (too_many_requests (Some "1"));
     interrupt := fun _ => None;
     close_client := fun _ => None |}.

(** * Properties of the dispatcher *)

Lemma retry_delay_indicated r d : retry_delay r = inl d <-> indicated_delay r d.
Proof.
  unfold retry_delay, indicated_delay.
  destruct (headers r !! "Retry-After") as [s|].
  - destruct (int_of_str s) as [n|e]; split; intros H; try discriminate H;
      injection H as ->; reflexivity.
  - split; [intros [= <-] | intros ->]; reflexivity.
Qed.

Lemma sleepable_leb d : sleepable d <-> (FLOAT_OVERFLOW <=? d) = false.
Proof. unfold sleepable. symmetry. apply Z.leb_gt. Qed.

Lemma py_int_retry_after r t :
  py_int (headers_get (headers r) "Retry-After" (VInt RETRY_DELAY)) t =
  match retry_delay r with
  | inl n => (inl n, t)
  | inr msg => (inr (Exc (PyException msg)), t)
  end.
Proof.
  unfold headers_get, retry_delay.
  destruct (headers r !! "Retry-After") as [s|]; simpl; [|reflexivity].
  destruct (int_of_str s); reflexivity.
Qed.

(** [handler] never raises and leaves the trace as it is. *)
Lemma handler_returns e t : exists v, handler e t = (inl v, t).
Proof. destruct e; eexists; reflexivity. Qed.

Lemma handler_failure e t :
  exists msg, handler e t = (inl (Failure msg), t) /\ failure_message msg.
Proof. destruct e; eexists; (split; [reflexivity | constructor]). Qed.

Lemma try_except_caught (body : M value) t : try_except body handler t = caught (body t).
Proof. unfold try_except, caught. destruct (body t) as [[v|[e|name]] t']; reflexivity. Qed.

Lemma snd_caught o : snd (caught o) = snd o.
Proof.
  destruct o as [[v|[e|name]] t']; try reflexivity.
  cbn. destruct (handler_returns e t') as [v ->]. reflexivity.
Qed.

Lemma caught_caught o : caught (caught o) = caught o.
Proof.
  destruct o as [[v|[e|name]] t']; try reflexivity.
  cbn. destruct (handler_returns e t') as [v ->]. reflexivity.
Qed.

Lemma snd_closing rt o : snd (closing rt o) = snd o.
Proof. unfold closing. destruct (close_client rt (snd o)); reflexivity. Qed.

Lemma snd_unwind rt o : snd (unwind rt o) = snd o.
Proof. unfold unwind. rewrite snd_closing. apply snd_caught. Qed.

(** Passing an outcome through two enclosing attempts is passing it through
    one: the trace is the same at both, so closing the client does the same
    at both, and what the first [try] let through the second lets through. *)
Lemma unwind_unwind rt o : unwind rt (unwind rt o) = unwind rt o.
Proof.
  unfold unwind, closing. rewrite !snd_caught.
  destruct (close_client rt (snd o)) as [x|] eqn:Hclose.
  - cbn [snd]. destruct x as [e|name]; cbn.
    + destruct (handler_returns e (snd o)) as [v ->]. cbn [snd]. rewrite Hclose. reflexivity.
    + rewrite Hclose. reflexivity.
  - rewrite caught_caught, snd_caught, Hclose. reflexivity.
Qed.




Section RuntimeFacts.

Variable QASE_API_TOKEN : string.
Variable rt : runtime.
Variables (method endpoint : string) (params json_data : option dict).

#[local] Abbreviation run_in :=
  (make_request_in QASE_API_TOKEN rt method endpoint params json_data).
#[local] Abbreviation rq_in := (build_request QASE_API_TOKEN method endpoint params json_data).

Lemma async_with_client_closing (body : M value) t :
  create_client rt t = None ->
  async_with_client rt body t = closing rt (body t).
Proof.
  intros Hnew. unfold async_with_client, closing. rewrite Hnew.
  destruct (body t) as [o t']. reflexivity.
Qed.

(** One attempt of [make_request], case by case. *)
Lemma make_request_in_attempt retries t :
  run_in retries t =
  if negb (truthy QASE_API_TOKEN) then
    (inl (Failure "QASE_API_TOKEN environment variable is not set"), t)
  else
    match create_client rt t with
    | Some x => (inr x, t)
    | None =>
        let t1 := t ++ [EvRequest rq_in] in
        closing rt
          match send rt t rq_in with
          | inr x => caught (inr x, t1)
          | inl r =>
              if status_code r =? 429 then
                if retries <? MAX_RETRIES then
                  match retry_delay r with
                  | inr msg => (inl (Failure ("Unexpected error: " +:+ msg)), t1)
                  | inl n =>
                      if FLOAT_OVERFLOW <=? n then
                        (inl (Failure "Unexpected error: int too large to convert to float"), t1)
                      else
                        match interrupt rt t1 with
                        | Some x => caught (inr x, t1)
                        | None => caught (run_in (retries + 1) (t1 ++ [EvSleep n]))
                        end
                  end
                else (inl (Failure "Rate limit exceeded after maximum retries"), t1)
              else if is_success r then
                match json r with
                | inl v => (inl v, t1)
                | inr msg => (inl (Failure ("Unexpected error: " +:+ msg)), t1)
                end
              else
                (inl (Failure ("HTTP error: " +:+ str (status_code r) +:+ " - " +:+ text r)), t1)
          end
    end.
Proof.
  rewrite make_request_in_equation_1.
  destruct (negb (truthy QASE_API_TOKEN)); [reflexivity|].
  destruct (create_client rt t) as [x|] eqn:Hnew.
  { unfold async_with_client. rewrite Hnew. reflexivity. }
  rewrite (async_with_client_closing _ _ Hnew). cbn zeta. f_equal.
  rewrite try_except_caught.
  unfold mbind, M_bind, bind, client_request.
  destruct (send rt t rq_in) as [r|x]; [|reflexivity].
  destruct (status_code r =? 429).
  - destruct (Z_lt_dec retries MAX_RETRIES) as [Hlt|Hge].
    + apply Z.ltb_lt in Hlt. rewrite Hlt.
      rewrite py_int_retry_after.
      destruct (retry_delay r) as [n|msg]; [|reflexivity].
      unfold asyncio_sleep.
      destruct (FLOAT_OVERFLOW <=? n); [reflexivity|].
      destruct (interrupt rt (t ++ [EvRequest rq_in])); reflexivity.
    + apply Z.ltb_nlt in Hge. rewrite Hge. reflexivity.
  - unfold raise_for_status, response_json.
    destruct (is_success r); [|reflexivity].
    destruct (json r); reflexivity.
Qed.


Lemma caught_settled o :
  (forall v, fst o = inl v ->
     (exists msg, failure_message msg /\ v = Failure msg) \/ answered rt rq_in (snd o) v) ->
  settled rt rq_in (caught o).
Proof.
  destruct o as [[v|[e|name]] t']; cbn; intros Hv.
  - apply Hv. reflexivity.
  - destruct (handler_failure e t') as (msg & -> & Hmsg). left. eauto.
  - eauto.
Qed.

Lemma closing_contained t o : settled rt rq_in o -> contained rt rq_in t (closing rt o).
Proof.
  unfold closing. destruct o as [[v|x] t']; cbn [snd]; intros Ho;
    destruct (close_client rt t') as [y|] eqn:Hclose; cbn; auto.
Qed.

Ltac failure_leaf :=
  cbn; left; eexists; split; [constructor | reflexivity].

(** Whatever the runtime does, the outcome of a call is contained. *)
Lemma make_request_in_contained retries t :
  contained rt rq_in t (run_in retries t).
Proof.
  remember (Z.to_nat (MAX_RETRIES - retries)) as n eqn:Hn.
  revert retries t Hn.
  induction n as [|n IH]; intros retries t Hn; rewrite make_request_in_attempt;
    (destruct (negb (truthy QASE_API_TOKEN)); [failure_leaf|]);
    (destruct (create_client rt t) as [x|] eqn:Hnew; [cbn; auto|]);
    cbn zeta; apply closing_contained;
    (destruct (send rt t rq_in) as [r|x] eqn:Hsend;
       [|apply caught_settled; intros v Hv; discriminate Hv]);
    (destruct (status_code r =? 429);
       [|destruct (is_success r) eqn:Hok; [destruct (json r) as [v|msg] eqn:Hjson|];
         try failure_leaf; cbn; right; exists t, r; auto]);
    (destruct (retries <? MAX_RETRIES) eqn:Hlt; [|failure_leaf]);
    (destruct (retry_delay r) as [d|msg]; [|failure_leaf]);
    (destruct (FLOAT_OVERFLOW <=? d); [failure_leaf|]);
    (destruct (interrupt rt (t ++ [EvRequest rq_in])) as [x|];
       [apply caught_settled; intros v Hv; discriminate Hv|]);
    apply Z.ltb_lt in Hlt.
  - unfold MAX_RETRIES in *. lia.
  - apply caught_settled. intros v Hv.
    specialize (IH (retries + 1) ((t ++ [EvRequest rq_in]) ++ [EvSleep d])).
    destruct (run_in (retries + 1) ((t ++ [EvRequest rq_in]) ++ [EvSleep d])) as [o t'].
    cbn in Hv. subst o. apply IH. lia.
Qed.

(** An attempt either is a rate-limited one that retries, and its outcome
    is that of the retry as the attempt passes it on, or it adds to the trace
    its own request at most. *)
Lemma make_request_in_retry_or_last retries t :
  (exists d,
     throttled_in rt rq_in t [d] /\ retries < MAX_RETRIES /\
     run_in retries t = unwind rt (run_in (retries + 1) (t ++ [EvRequest rq_in; EvSleep d]))) \/
  snd (run_in retries t) = t ++ last_events QASE_API_TOKEN rt rq_in t.
Proof.
  rewrite !make_request_in_attempt. unfold last_events.
  destruct (truthy QASE_API_TOKEN); cbn [negb]; [|right; cbn; rewrite app_nil_r; reflexivity].
  destruct (create_client rt t) as [x|] eqn:Hnew; [right; cbn; rewrite app_nil_r; reflexivity|].
  cbn zeta. rewrite snd_closing.
  destruct (send rt t rq_in) as [r|x] eqn:Hsend; [|right; apply snd_caught].
  destruct (status_code r =? 429) eqn:H429;
    [|right; destruct (is_success r); [destruct (json r)|]; reflexivity].
  destruct (retries <? MAX_RETRIES) eqn:Hlt; [|right; reflexivity].
  destruct (retry_delay r) as [d|msg] eqn:Hd; [|right; reflexivity].
  destruct (FLOAT_OVERFLOW <=? d) eqn:Hfit; [right; reflexivity|].
  destruct (interrupt rt (t ++ [EvRequest rq_in])) as [x|] eqn:Hint; [right; apply snd_caught|].
  left. exists d.
  apply Z.ltb_lt in Hlt. apply Z.eqb_eq in H429.
  apply retry_delay_indicated in Hd. apply sleepable_leb in Hfit.
  split; [|split; [exact Hlt|]].
  - cbn. split; [exact Hnew|]. split; [eauto|]. auto.
  - unfold unwind. rewrite <- app_assoc. reflexivity.
Qed.

(** The whole of a call: some rate-limited attempts, within the budget, and
    a last attempt whose outcome the others pass on. *)
Lemma make_request_in_last_attempt retries t :
  exists delays,
    (length delays <= Z.to_nat (MAX_RETRIES - retries))%nat /\
    throttled_in rt rq_in t delays /\
    snd (run_in (retries + Z.of_nat (length delays)) (t ++ waits rq_in delays)) =
      (t ++ waits rq_in delays) ++
      last_events QASE_API_TOKEN rt rq_in (t ++ waits rq_in delays) /\
    run_in retries t =
      match delays with
      | [] => run_in (retries + Z.of_nat (length delays)) (t ++ waits rq_in delays)
      | _ :: _ =>
          unwind rt (run_in (retries + Z.of_nat (length delays)) (t ++ waits rq_in delays))
      end.
Proof.
  remember (Z.to_nat (MAX_RETRIES - retries)) as n eqn:Hn.
  revert retries t Hn.
  induction n as [|n IH]; intros retries t Hn;
    destruct (make_request_in_retry_or_last retries t) as [(d & Hthr & Hlt & Hrun)|Hlast].
  - lia.
  - exists []. cbn [length waits flat_map]. rewrite Z.add_0_r, !app_nil_r.
    split; [lia|]. split; [exact I|]. split; [exact Hlast | reflexivity].
  - destruct (IH (retries + 1) (t ++ [EvRequest rq_in; EvSleep d])) as (ds & Hlen & Hds & Htr & Hgo);
      [lia|].
    exists (d :: ds). cbn [length].
    replace (retries + Z.of_nat (S (length ds))) with (retries + 1 + Z.of_nat (length ds)) by lia.
    replace (t ++ waits rq_in (d :: ds))
      with ((t ++ [EvRequest rq_in; EvSleep d]) ++ waits rq_in ds)
      by (rewrite <- app_assoc; reflexivity).
    split; [lia|].
    split.
    { cbn in Hthr. cbn. destruct Hthr as (H1 & H2 & H3 & H4 & _). auto. }
    split; [exact Htr|].
    rewrite Hrun, Hgo. destruct ds; [reflexivity | apply unwind_unwind].
  - exists []. cbn [length waits flat_map]. rewrite Z.add_0_r, !app_nil_r.
    split; [lia|]. split; [exact I|]. split; [exact Hlast | reflexivity].
Qed.

(** A call never removes events, and it starts with a request once it has
    a token and a client. *)
Lemma make_request_in_trace retries t :
  exists events,
    snd (run_in retries t) = t ++ events /\
    (events = [] <-> last_events QASE_API_TOKEN rt rq_in t = []).
Proof.
  destruct (make_request_in_last_attempt retries t) as (ds & _ & Hthr & Htr & Hrun).
  exists (waits rq_in ds ++ last_events QASE_API_TOKEN rt rq_in (t ++ waits rq_in ds)).
  split.
  - rewrite Hrun, app_assoc, <- Htr. destruct ds; [reflexivity | apply snd_unwind].
  - destruct ds as [|d ds].
    + cbn [waits flat_map app]. rewrite app_nil_r. reflexivity.
    + split; [intros H; discriminate H|].
      destruct Hthr as (Hnew & _). unfold last_events. rewrite Hnew.
      intros H. destruct (truthy QASE_API_TOKEN) eqn:Htok; [discriminate H|].
      exfalso. clear H.
      rewrite make_request_in_attempt, Htok in Hrun. cbn [negb] in Hrun.
      apply (f_equal snd) in Hrun. rewrite snd_unwind, Htr in Hrun. cbn [snd] in Hrun.
      apply (f_equal length) in Hrun. rewrite !length_app in Hrun. cbn in Hrun. lia.
Qed.

End RuntimeFacts.

Section DispatcherFacts.

Variable QASE_API_TOKEN : string.
Variable server : list event -> request -> response + exn.
Variables (method endpoint : string) (params json_data : option dict).

#[local] Abbreviation run := (make_request QASE_API_TOKEN server method endpoint params json_data).
#[local] Abbreviation q := (build_request QASE_API_TOKEN method endpoint params json_data).

(** One attempt against a server, with the recursive call still under the
    [try]. *)
Lemma make_request_attempt retries t :
  run retries t =
  if negb (truthy QASE_API_TOKEN) then
    (inl (Failure "QASE_API_TOKEN environment variable is not set"), t)
  else
    let t1 := t ++ [EvRequest q] in
    match server t q with
    | inr e => handler e t1
    | inl r =>
        if status_code r =? 429 then
          if retries <? MAX_RETRIES then
            match retry_delay r with
            | inr msg => (inl (Failure ("Unexpected error: " +:+ msg)), t1)
            | inl n =>
                if FLOAT_OVERFLOW <=? n then
                  (inl (Failure "Unexpected error: int too large to convert to float"), t1)
                else caught (run (retries + 1) (t1 ++ [EvSleep n]))
            end
          else (inl (Failure "Rate limit exceeded after maximum retries"), t1)
        else if is_success r then
          match json r with
          | inl v => (inl v, t1)
          | inr msg => (inl (Failure ("Unexpected error: " +:+ msg)), t1)
          end
        else
          (inl (Failure ("HTTP error: " +:+ str (status_code r) +:+ " - " +:+ text r)), t1)
    end.
Proof.
  unfold make_request. rewrite make_request_in_attempt.
  destruct (negb (truthy QASE_API_TOKEN)); [reflexivity|].
  unfold closing. cbn [calm create_client send interrupt close_client]. cbn zeta.
  destruct (server t q) as [r|e]; [|reflexivity].
  destruct (status_code r =? 429); [|reflexivity].
  destruct (retries <? MAX_RETRIES); [|reflexivity].
  destruct (retry_delay r) as [n|msg]; reflexivity.
Qed.

(** Against a server, [make_request] never raises: whatever the arguments
    and the history, it returns a value.  By induction on
    [MAX_RETRIES - retries]. *)
Lemma make_request_returns retries t : exists v t', run retries t = (inl v, t').
Proof.
  remember (Z.to_nat (MAX_RETRIES - retries)) as n eqn:Hn.
  revert retries t Hn.
  induction n as [|n IH]; intros retries t Hn; rewrite make_request_attempt;
    (destruct (negb (truthy QASE_API_TOKEN)); [eauto|]); cbn zeta;
    (destruct (server t q) as [r|e];
       [|destruct (handler_returns e (t ++ [EvRequest q])) as [v ->]; eauto]);
    (destruct (status_code r =? 429);
       [|destruct (is_success r); [destruct (json r)|]; eauto]);
    (destruct (retries <? MAX_RETRIES) eqn:Hlt; [|eauto]);
    (destruct (retry_delay r) as [d|]; [|eauto]);
    (destruct (FLOAT_OVERFLOW <=? d); [eauto|]);
    apply Z.ltb_lt in Hlt.
  - unfold MAX_RETRIES in *. lia.
  - destruct (IH (retries + 1) ((t ++ [EvRequest q]) ++ [EvSleep d])) as (v & t' & Hrun);
      [lia|].
    rewrite Hrun. eauto.
Qed.

(** The [try] around the recursive call is therefore transparent. *)
Lemma caught_make_request retries t : caught (run retries t) = run retries t.
Proof. destruct (make_request_returns retries t) as (v & t' & ->). reflexivity. Qed.

(** One attempt of [make_request] against a server, case by case. *)
Lemma make_request_step retries t :
  run retries t =
  if negb (truthy QASE_API_TOKEN) then
    (inl (Failure "QASE_API_TOKEN environment variable is not set"), t)
  else
    let t1 := t ++ [EvRequest q] in
    match server t q with
    | inr e => handler e t1
    | inl r =>
        if status_code r =? 429 then
          if retries <? MAX_RETRIES then
            match retry_delay r with
            | inr msg => (inl (Failure ("Unexpected error: " +:+ msg)), t1)
            | inl n =>
                if FLOAT_OVERFLOW <=? n then
                  (inl (Failure "Unexpected error: int too large to convert to float"), t1)
                else run (retries + 1) (t1 ++ [EvSleep n])
            end
          else (inl (Failure "Rate limit exceeded after maximum retries"), t1)
        else if is_success r then
          match json r with
          | inl v => (inl v, t1)
          | inr msg => (inl (Failure ("Unexpected error: " +:+ msg)), t1)
          end
        else
          (inl (Failure ("HTTP error: " +:+ str (status_code r) +:+ " - " +:+ text r)), t1)
    end.
Proof.
  rewrite make_request_attempt.
  destruct (negb (truthy QASE_API_TOKEN)); [reflexivity|]. cbn zeta.
  destruct (server t q) as [r|e]; [|reflexivity].
  destruct (status_code r =? 429); [|reflexivity].
  destruct (retries <? MAX_RETRIES); [|reflexivity].
  destruct (retry_delay r) as [n|msg]; [|reflexivity].
  destruct (FLOAT_OVERFLOW <=? n); [reflexivity|].
  apply caught_make_request.
Qed.

Lemma retry_trace_cons (rq : request) (d : Z) (ds : list Z) :
  retry_trace rq (d :: ds) = EvRequest rq :: EvSleep d :: retry_trace rq ds.
Proof. reflexivity. Qed.

Lemma handler_terminal e t : exists v, handler e t = (inl v, t) /\ terminal v.
Proof. destruct e; eexists; (split; [reflexivity | constructor]). Qed.

(** The whole of a logical call against a server: it returns one terminal
    value; if the token is set, its events are the same request issued
    [1 + length delays] times with the waits in between, and there are at
    most [MAX_RETRIES - retries] waits. *)
Lemma make_request_outcome retries t :
  exists v delays,
    run retries t =
      (inl v, t ++ if truthy QASE_API_TOKEN then retry_trace q delays else []) /\
    (length delays <= Z.to_nat (MAX_RETRIES - retries))%nat /\
    terminal v.
Proof.
  remember (Z.to_nat (MAX_RETRIES - retries)) as n eqn:Hn.
  revert retries t Hn.
  induction n as [|n IH]; intros retries t Hn; rewrite make_request_step;
    (destruct (truthy QASE_API_TOKEN) eqn:Htok; cbn [negb];
       [|exists (Failure "QASE_API_TOKEN environment variable is not set"), [];
         rewrite app_nil_r; repeat split; [simpl; lia | constructor]]);
    cbn zeta;
    (destruct (server t q) as [r|e];
       [|destruct (handler_terminal e (t ++ [EvRequest q])) as (v & -> & Hv);
         exists v, []; repeat split; [simpl; lia | exact Hv]]);
    (destruct (status_code r =? 429);
       [|destruct (is_success r) eqn:Hok; [destruct (json r) eqn:Hjson|];
         eexists; exists []; (repeat split; [simpl; lia | econstructor; eassumption])]);
    (destruct (retries <? MAX_RETRIES) eqn:Hlt;
       [|eexists; exists []; (repeat split; [simpl; lia | constructor])]);
    (destruct (retry_delay r) as [d|];
       [|eexists; exists []; (repeat split; [simpl; lia | constructor])]);
    (destruct (FLOAT_OVERFLOW <=? d);
       [eexists; exists []; (repeat split; [simpl; lia | constructor])|]);
    apply Z.ltb_lt in Hlt.
  - unfold MAX_RETRIES in *. lia.
  - destruct (IH (retries + 1) ((t ++ [EvRequest q]) ++ [EvSleep d]))
      as (v & ds & Hrun & Hlen & Hv); [lia|].
    exists v, (d :: ds). rewrite Hrun, retry_trace_cons, <- !app_assoc.
    repeat split; [simpl; lia | exact Hv].
Qed.

Lemma count_requests_retry_trace (rq : request) (ds : list Z) :
  count_requests (retry_trace rq ds) = S (length ds).
Proof.
  induction ds as [|d ds IH]; [reflexivity|].
  rewrite retry_trace_cons. cbn [count_requests length]. rewrite IH. reflexivity.
Qed.

Lemma retry_trace_starts_with_request (rq : request) (ds : list Z) :
  exists rest, retry_trace rq ds = EvRequest rq :: rest.
Proof. destruct ds; eexists; reflexivity. Qed.

(** A 429 below the retry limit whose wait can be computed and waited: the
    call goes on as the call for [retries + 1], after the request and the
    wait. *)
Lemma make_request_retry retries t r d :
  truthy QASE_API_TOKEN = true ->
  server t q = inl r ->
  status_code r = 429 ->
  retries < MAX_RETRIES ->
  indicated_delay r d ->
  sleepable d ->
  run retries t = run (retries + 1) (t ++ [EvRequest q; EvSleep d]).
Proof.
  intros Htok Hsrv H429 Hlt Hd Hfit.
  apply retry_delay_indicated in Hd. apply sleepable_leb in Hfit.
  rewrite (make_request_step retries t), Htok, Hsrv, H429, Hd. cbn [negb].
  apply Z.ltb_lt in Hlt. rewrite Hlt. cbn zeta. cbn [Z.eqb Pos.eqb]. rewrite Hfit.
  rewrite <- app_assoc. reflexivity.
Qed.

(** A 429 at or past the retry limit ends the call. *)
Lemma make_request_exhausted retries t r :
  truthy QASE_API_TOKEN = true ->
  server t q = inl r ->
  status_code r = 429 ->
  MAX_RETRIES <= retries ->
  run retries t =
  (inl (Failure "Rate limit exceeded after maximum retries"), t ++ [EvRequest q]).
Proof.
  intros Htok Hsrv H429 Hge.
  rewrite (make_request_step retries t), Htok, Hsrv, H429. cbn [negb].
  assert (Hlt : (retries <? MAX_RETRIES) = false) by (apply Z.ltb_ge; exact Hge).
  rewrite Hlt. reflexivity.
Qed.

Lemma waits_cons (rq : request) (d : Z) (ds : list Z) :
  waits rq (d :: ds) = EvRequest rq :: EvSleep d :: waits rq ds.
Proof. reflexivity. Qed.

Lemma retry_trace_waits (rq : request) (ds : list Z) :
  retry_trace rq ds = waits rq ds ++ [EvRequest rq].
Proof. reflexivity. Qed.

(** Rate-limited attempts within the budget are transparent: the call goes
    on as the call entered with as many more retries, after their events. *)
Lemma make_request_throttled (ds : list Z) :
  forall retries t,
    truthy QASE_API_TOKEN = true ->
    throttled server q t ds ->
    retries + Z.of_nat (length ds) <= MAX_RETRIES ->
    run retries t = run (retries + Z.of_nat (length ds)) (t ++ waits q ds).
Proof.
  induction ds as [|d ds IH]; intros retries t Htok Hthr Hle.
  - cbn. rewrite Z.add_0_r, app_nil_r. reflexivity.
  - destruct Hthr as ((r & Hsrv & H429 & Hd) & Hfit & Hrest).
    cbn [length] in Hle.
    rewrite (make_request_retry retries t r d Htok Hsrv H429) by (lia || assumption).
    rewrite (IH (retries + 1) _ Htok Hrest) by lia.
    rewrite waits_cons. cbn [length].
    replace (retries + 1 + Z.of_nat (length ds)) with (retries + Z.of_nat (S (length ds))) by lia.
    rewrite <- app_assoc. reflexivity.
Qed.

(** When the attempts left are all rate limited, the call ends with the
    rate-limit failure after the last of them. *)
Lemma make_request_budget retries t (ds : list Z) r :
  truthy QASE_API_TOKEN = true ->
  length ds = Z.to_nat (MAX_RETRIES - retries) ->
  throttled server q t ds ->
  server (t ++ waits q ds) q = inl r ->
  status_code r = 429 ->
  run retries t =
  (inl (Failure "Rate limit exceeded after maximum retries"), t ++ retry_trace q ds).
Proof.
  intros Htok Hlen Hthr Hsrv H429.
  rewrite retry_trace_waits, app_assoc.
  destruct (Z_le_gt_dec retries MAX_RETRIES) as [Hle|Hgt].
  - rewrite (make_request_throttled ds retries t Htok Hthr) by lia.
    apply (make_request_exhausted _ _ r Htok Hsrv H429). lia.
  - destruct ds as [|d ds]; [|cbn [length] in Hlen; lia].
    cbn [waits flat_map] in *. rewrite app_nil_r in *.
    apply (make_request_exhausted _ _ r Htok Hsrv H429). lia.
Qed.

End DispatcherFacts.

(** * The claims about the dispatcher *)

(** C3, as it holds on the code: with no credential configured (the token is
    the empty string), [make_request] returns at once the failure
    [{"error": "QASE_API_TOKEN environment variable is not set"}], for every
    method, path, params, body and retry count, and the trace is unchanged:
    no network call is made. *)
Theorem missing_token_fails_without_network
    (server : list event -> request -> response + exn)
    (method endpoint : string) (params json_data : option dict) (retries : Z)
    (t : list event) :
  make_request "" server method endpoint params json_data retries t =
  (inl (Failure "QASE_API_TOKEN environment variable is not set"), t).
Proof. rewrite make_request_step. reflexivity. Qed.

(** C3 as stated fails on the message: GET /project without a token does not
    return the failure whose message is "credential not configured". *)
Lemma missing_token_message_is_not_the_specified_one :
  fst (make_request "" (always (inl created)) "GET" "/project" None None 0 []) <>
  inl (Failure "credential not configured").
Proof.
  rewrite make_request_step. cbn [truthy string_truthy negb fst].
  intros H.
  assert (H' := f_equal (fun x => match x with inl v => error_message v | inr _ => None end) H).
  vm_compute in H'. discriminate H'.
Qed.

(** The scenario of the specification: the tool that lists projects, run
    without a token, fails at once and the trace stays empty. *)
Example list_projects_without_token :
  invoke "" (always (inl created)) (qase_list_projects None None) [] =
  (inl (Failure "QASE_API_TOKEN environment variable is not set"), []).
Proof. unfold invoke. rewrite make_request_step. reflexivity. Qed.

(** C5: a response whose status is neither 429 nor in 200..299 makes
    [make_request] return the failure carrying the status code and the body
    text; the trace gains exactly one network call and no wait. *)
Theorem http_error_fails_after_one_attempt
    (QASE_API_TOKEN : string) (server : list event -> request -> response + exn)
    (method endpoint : string) (params json_data : option dict) (retries : Z)
    (t : list event) (r : response) :
  truthy QASE_API_TOKEN = true ->
  server t (build_request QASE_API_TOKEN method endpoint params json_data) = inl r ->
  status_code r <> 429 ->
  ~ (200 <= status_code r <= 299) ->
  make_request QASE_API_TOKEN server method endpoint params json_data retries t =
  (inl (Failure ("HTTP error: " +:+ str (status_code r) +:+ " - " +:+ text r)),
   t ++ [EvRequest (build_request QASE_API_TOKEN method endpoint params json_data)]).
Proof.
  intros Htok Hsrv H429 H2xx.
  rewrite make_request_step, Htok, Hsrv. cbn [negb].
  apply Z.eqb_neq in H429. rewrite H429.
  unfold is_success.
  destruct (200 <=? status_code r) eqn:Hlo; destruct (status_code r <=? 299) eqn:Hhi;
    try reflexivity.
  apply Z.leb_le in Hlo, Hhi. lia.
Qed.

Lemma http_error_fails_after_one_attempt_witness :
  truthy "secret" = true /\
  always (inl not_found) [] (build_request "secret" "GET" "/project/DEMO" None None) =
    inl not_found /\
  status_code not_found <> 429 /\
  ~ (200 <= status_code not_found <= 299) /\
  make_request "secret" (always (inl not_found)) "GET" "/project/DEMO" None None 0 [] =
  (inl (Failure "HTTP error: 404 - Not Found"),
   [EvRequest (build_request "secret" "GET" "/project/DEMO" None None)]).
Proof.
  assert (H1 : truthy "secret" = true) by reflexivity.
  assert (H2 : status_code not_found <> 429) by (simpl; lia).
  assert (H3 : ~ (200 <= status_code not_found <= 299)) by (simpl; lia).
  refine (conj H1 (conj eq_refl (conj H2 (conj H3 _)))).
  exact (http_error_fails_after_one_attempt "secret" (always (inl not_found))
           "GET" "/project/DEMO" None None 0 [] not_found H1 eq_refl H2 H3).
Defined.

(** C6: when the HTTP call raises a transport error ([httpx.RequestError]:
    connection refused, DNS failure, timeout), [make_request] returns the
    failure carrying the text of the error; the trace gains exactly one
    network call and no wait. *)
Theorem transport_error_fails_after_one_attempt
    (QASE_API_TOKEN : string) (server : list event -> request -> response + exn)
    (method endpoint : string) (params json_data : option dict) (retries : Z)
    (t : list event) (msg : string) :
  truthy QASE_API_TOKEN = true ->
  server t (build_request QASE_API_TOKEN method endpoint params json_data) =
    inr (RequestError msg) ->
  make_request QASE_API_TOKEN server method endpoint params json_data retries t =
  (inl (Failure ("Request error: " +:+ msg)),
   t ++ [EvRequest (build_request QASE_API_TOKEN method endpoint params json_data)]).
Proof.
  intros Htok Hsrv. rewrite make_request_step, Htok, Hsrv. reflexivity.
Qed.

Lemma transport_error_fails_after_one_attempt_witness :
  truthy "secret" = true /\
  always (inr (RequestError "All connection attempts failed")) []
    (build_request "secret" "GET" "/project" None None) =
    inr (RequestError "All connection attempts failed") /\
  make_request "secret" (always (inr (RequestError "All connection attempts failed")))
    "GET" "/project" None None 0 [] =
  (inl (Failure "Request error: All connection attempts failed"),
   [EvRequest (build_request "secret" "GET" "/project" None None)]).
Proof.
  refine (conj eq_refl (conj eq_refl _)).
  exact (transport_error_fails_after_one_attempt "secret"
           (always (inr (RequestError "All connection attempts failed")))
           "GET" "/project" None None 0 [] "All connection attempts failed"
           eq_refl eq_refl).
Defined.

(** C4: for a response with a status in 200..299, [make_request] returns
    exactly the value that [response.json()] yields when the body is valid
    JSON, and when the body is not valid JSON it returns the failure with the
    message "Unexpected error: " followed by the text of the decoding error;
    in both cases after one network call, and without raising. *)
Theorem success_returns_parsed_body
    (QASE_API_TOKEN : string) (server : list event -> request -> response + exn)
    (method endpoint : string) (params json_data : option dict) (retries : Z)
    (t : list event) (r : response) :
  truthy QASE_API_TOKEN = true ->
  server t (build_request QASE_API_TOKEN method endpoint params json_data) = inl r ->
  200 <= status_code r <= 299 ->
  make_request QASE_API_TOKEN server method endpoint params json_data retries t =
  (inl (match json r with
        | inl v => v
        | inr msg => Failure ("Unexpected error: " +:+ msg)
        end),
   t ++ [EvRequest (build_request QASE_API_TOKEN method endpoint params json_data)]).
Proof.
  intros Htok Hsrv [Hlo Hhi].
  rewrite make_request_step, Htok, Hsrv. cbn [negb].
  assert (H429 : (status_code r =? 429) = false) by (apply Z.eqb_neq; lia).
  rewrite H429. unfold is_success.
  apply Z.leb_le in Hlo, Hhi. rewrite Hlo, Hhi.
  destruct (json r); reflexivity.
Qed.

Lemma success_returns_parsed_body_witness :
  truthy "secret" = true /\
  always (inl created) [] (build_request "secret" "POST" "/case/DEMO" None None) = inl created /\
  200 <= status_code created <= 299 /\
  make_request "secret" (always (inl created)) "POST" "/case/DEMO" None None 0 [] =
  (inl (VDict {[ "result" := VDict {[ "id" := VInt 1 ]} ]}),
   [EvRequest (build_request "secret" "POST" "/case/DEMO" None None)]).
Proof.
  assert (H : 200 <= status_code created <= 299) by (simpl; lia).
  refine (conj eq_refl (conj eq_refl (conj H _))).
  exact (success_returns_parsed_body "secret" (always (inl created))
           "POST" "/case/DEMO" None None 0 [] created eq_refl eq_refl H).
Defined.

(** A 200 response that is not JSON: the decoding error comes back as a
    failure value. *)
Example success_with_malformed_body :
  make_request "secret" (always (inl html_page)) "GET" "/project" None None 0 [] =
  (inl (Failure "Unexpected error: Expecting value: line 1 column 1 (char 0)"),
   [EvRequest (build_request "secret" "GET" "/project" None None)]).
Proof. rewrite make_request_step. reflexivity. Qed.

(** C2, as it holds on the code: on an HTTP 429 received while
    [0 <= retries < MAX_RETRIES], when the Retry-After header is absent or is
    a decimal integer literal that [int] accepts, and the delay is one that
    [asyncio.sleep] accepts, the dispatcher waits the number of seconds the
    header gives, or 60 seconds when the header is absent, and then re-issues
    the identical request with [retries + 1]. *)
Theorem rate_limited_waits_then_retries
    (QASE_API_TOKEN : string) (server : list event -> request -> response + exn)
    (method endpoint : string) (params json_data : option dict) (retries : Z)
    (t : list event) (r : response) (d : Z) :
  truthy QASE_API_TOKEN = true ->
  server t (build_request QASE_API_TOKEN method endpoint params json_data) = inl r ->
  status_code r = 429 ->
  0 <= retries < MAX_RETRIES ->
  indicated_delay r d ->
  sleepable d ->
  let rq := build_request QASE_API_TOKEN method endpoint params json_data in
  make_request QASE_API_TOKEN server method endpoint params json_data retries t =
    make_request QASE_API_TOKEN server method endpoint params json_data (retries + 1)
      (t ++ [EvRequest rq; EvSleep d]) /\
  exists v rest,
    make_request QASE_API_TOKEN server method endpoint params json_data retries t =
    (inl v, t ++ [EvRequest rq; EvSleep d; EvRequest rq] ++ rest).
Proof.
  intros Htok Hsrv H429 [_ Hlt] Hd Hfit rq. subst rq.
  pose proof (make_request_retry _ _ _ _ _ _ _ _ _ _ Htok Hsrv H429 Hlt Hd Hfit) as Hstep.
  split; [exact Hstep|].
  rewrite Hstep.
  destruct (make_request_outcome QASE_API_TOKEN server method endpoint params json_data
              (retries + 1)
              (t ++ [EvRequest (build_request QASE_API_TOKEN method endpoint params json_data);
                     EvSleep d])) as (v & ds & Hrun & _ & _).
  rewrite Htok in Hrun. cbv beta iota in Hrun.
  destruct (retry_trace_starts_with_request
              (build_request QASE_API_TOKEN method endpoint params json_data) ds)
    as [rest Hrest].
  rewrite Hrest in Hrun.
  exists v, rest. rewrite Hrun, <- app_assoc. reflexivity.
Qed.

Lemma rate_limited_waits_then_retries_witness :
  let server := scripted [inl (too_many_requests (Some "2"))] (inl created) in
  let rq := build_request "secret" "POST" "/case/DEMO" None None in
  truthy "secret" = true /\
  server [] rq = inl (too_many_requests (Some "2")) /\
  status_code (too_many_requests (Some "2")) = 429 /\
  0 <= 0 < MAX_RETRIES /\
  indicated_delay (too_many_requests (Some "2")) 2 /\
  sleepable 2 /\
  make_request "secret" server "POST" "/case/DEMO" None None 0 [] =
    make_request "secret" server "POST" "/case/DEMO" None None (0 + 1)
      ([] ++ [EvRequest rq; EvSleep 2]) /\
  exists v rest,
    make_request "secret" server "POST" "/case/DEMO" None None 0 [] =
    (inl v, [] ++ [EvRequest rq; EvSleep 2; EvRequest rq] ++ rest).
Proof.
  intros server rq.
  assert (Hlt : 0 <= 0 < MAX_RETRIES) by (unfold MAX_RETRIES; lia).
  assert (Hd : indicated_delay (too_many_requests (Some "2")) 2) by reflexivity.
  assert (Hfit : sleepable 2) by reflexivity.
  refine (conj eq_refl (conj eq_refl (conj eq_refl (conj Hlt (conj Hd (conj Hfit _)))))).
  exact (rate_limited_waits_then_retries "secret" server "POST" "/case/DEMO" None None 0 []
           (too_many_requests (Some "2")) 2 eq_refl eq_refl eq_refl Hlt Hd Hfit).
Defined.

(** The scenario of the specification: POST /case/DEMO is answered with 429
    and [Retry-After: 2], then with 200; the call waits 2 seconds and returns
    the parsed body of the second response. *)
Example rate_limited_once_then_success :
  make_request "secret" (scripted [inl (too_many_requests (Some "2"))] (inl created))
    "POST" "/case/DEMO" None None 0 [] =
  (inl (VDict {[ "result" := VDict {[ "id" := VInt 1 ]} ]}),
   [EvRequest (build_request "secret" "POST" "/case/DEMO" None None);
    EvSleep 2;
    EvRequest (build_request "secret" "POST" "/case/DEMO" None None)]).
Proof. vm_compute. reflexivity. Qed.

(** C2 as stated fails when the header cannot be parsed: a 429 whose
    Retry-After is an HTTP date makes [int] raise; the call ends with an
    "Unexpected error" failure after its first attempt, without waiting and
    without a second request. *)
Lemma unparsable_retry_after_is_not_retried :
  let server := always (inl (too_many_requests (Some "Wed, 21 Oct 2015 07:28:00 GMT"))) in
  let rq := build_request "secret" "GET" "/project" None None in
  make_request "secret" server "GET" "/project" None None 0 [] =
    (inl (Failure ("Unexpected error: invalid literal for int() with base 10: " +:+
                   "'Wed, 21 Oct 2015 07:28:00 GMT'")),
     [EvRequest rq]) /\
  ~ exists v rest,
      make_request "secret" server "GET" "/project" None None 0 [] =
      (inl v, [EvRequest rq; EvSleep RETRY_DELAY; EvRequest rq] ++ rest).
Proof.
  intros server rq.
  assert (Hrun : make_request "secret" server "GET" "/project" None None 0 [] =
                 (inl (Failure ("Unexpected error: invalid literal for int() with base 10: " +:+
                                "'Wed, 21 Oct 2015 07:28:00 GMT'")),
                  [EvRequest rq])).
  { rewrite make_request_step. reflexivity. }
  split; [exact Hrun|].
  intros (v & rest & H). rewrite Hrun in H.
  apply (f_equal (fun p => length (snd p))) in H. simpl in H. lia.
Qed.

(** Three more headers that end the call after its first attempt.  A unit
    separator (character 31) before the digit is not whitespace for [int]. *)
Example control_character_is_not_stripped :
  make_request "secret" (always (inl (too_many_requests (Some (String "031" "5")))))
    "GET" "/project" None None 0 [] =
  (inl (Failure "Unexpected error: invalid literal for int() with base 10: '\x1f5'"),
   [EvRequest (build_request "secret" "GET" "/project" None None)]).
Proof. vm_compute. reflexivity. Qed.

(** A literal of 4301 digits is over the limit of [int]. *)
Example too_many_digits_are_not_converted :
  let s := String.string_of_list_ascii (repeat "1"%char 4301) in
  int_of_str s = inr (TooManyDigits 4301) /\
  fst (make_request "secret" (always (inl (too_many_requests (Some s))))
         "GET" "/project" None None 0 []) =
  inl (Failure ("Unexpected error: Exceeds the limit (4300 digits) for integer string " +:+
                "conversion: value has 4301 digits; use sys.set_int_max_str_digits() " +:+
                "to increase the limit")).
Proof. vm_compute. split; reflexivity. Qed.

(** The delay [10^309] is an integer that [asyncio.sleep] cannot convert to
    a float. *)
Example delay_too_large_for_a_float :
  let s := String.string_of_list_ascii ("1"%char :: repeat "0"%char 309) in
  int_of_str s = inl (10 ^ 309) /\
  ~ sleepable (10 ^ 309) /\
  make_request "secret" (always (inl (too_many_requests (Some s))))
    "GET" "/project" None None 0 [] =
  (inl (Failure "Unexpected error: int too large to convert to float"),
   [EvRequest (build_request "secret" "GET" "/project" None None)]).
Proof.
  split; [vm_compute; reflexivity|].
  split; [intros H; vm_compute in H; discriminate H|].
  vm_compute. reflexivity.
Qed.

(** C1, as it holds on the code: when the four network calls that a
    logical call makes are answered with HTTP 429, the first three with a
    Retry-After header that is absent or a decimal integer literal that [int]
    accepts and that gives a delay [asyncio.sleep] accepts, [make_request]
    (entered with [retries = 0]) issues the request four times, the first
    attempt and [MAX_RETRIES] = 3 retries; before each retry it waits the
    duration indicated by the response just received (Retry-After, else 60
    seconds); after the fourth 429, whatever its Retry-After, it returns
    [{"error": "Rate limit exceeded after maximum retries"}] without raising,
    and the fourth request is the last event of the call.  Only the four
    histories that the call visits are constrained. *)
Theorem rate_limit_exhausts_after_max_retries
    (QASE_API_TOKEN : string) (server : list event -> request -> response + exn)
    (method endpoint : string) (params json_data : option dict) (t : list event)
    (d1 d2 d3 : Z) (r4 : response) :
  let rq := build_request QASE_API_TOKEN method endpoint params json_data in
  truthy QASE_API_TOKEN = true ->
  throttled server rq t [d1; d2; d3] ->
  server (t ++ [EvRequest rq; EvSleep d1; EvRequest rq; EvSleep d2; EvRequest rq; EvSleep d3]) rq =
    inl r4 ->
  status_code r4 = 429 ->
  make_request QASE_API_TOKEN server method endpoint params json_data 0 t =
  (inl (Failure "Rate limit exceeded after maximum retries"),
   t ++ [EvRequest rq; EvSleep d1; EvRequest rq; EvSleep d2;
         EvRequest rq; EvSleep d3; EvRequest rq]).
Proof.
  intros rq Htok Hthr Hsrv H429. subst rq.
  exact (make_request_budget QASE_API_TOKEN server method endpoint params json_data 0 t
           [d1; d2; d3] r4 Htok eq_refl Hthr Hsrv H429).
Qed.

Lemma rate_limit_exhausts_after_max_retries_witness :
  let server := always (inl (too_many_requests None)) in
  let rq := build_request "secret" "GET" "/project" None None in
  truthy "secret" = true /\
  throttled server rq [] [60; 60; 60] /\
  server ([] ++ [EvRequest rq; EvSleep 60; EvRequest rq; EvSleep 60; EvRequest rq; EvSleep 60])
    rq = inl (too_many_requests None) /\
  status_code (too_many_requests None) = 429 /\
  make_request "secret" server "GET" "/project" None None 0 [] =
  (inl (Failure "Rate limit exceeded after maximum retries"),
   [] ++ [EvRequest rq; EvSleep 60; EvRequest rq; EvSleep 60;
          EvRequest rq; EvSleep 60; EvRequest rq]).
Proof.
  intros server rq.
  assert (Hone : forall h,
             exists r, server h rq = inl r /\ status_code r = 429 /\ indicated_delay r 60).
  { intros h. exists (too_many_requests None). exact (conj eq_refl (conj eq_refl eq_refl)). }
  assert (Hfit : sleepable 60) by reflexivity.
  assert (Hthr : throttled server rq [] [60; 60; 60]).
  { exact (conj (Hone _) (conj Hfit (conj (Hone _) (conj Hfit (conj (Hone _) (conj Hfit I)))))). }
  refine (conj eq_refl (conj Hthr (conj eq_refl (conj eq_refl _)))).
  exact (rate_limit_exhausts_after_max_retries "secret" server "GET" "/project" None None []
           60 60 60 (too_many_requests None) eq_refl Hthr eq_refl eq_refl).
Defined.

(** Four 429 responses without a Retry-After header: three waits of 60
    seconds, four requests. *)
Example rate_limit_exhausted_default_delay :
  let rq := build_request "secret" "GET" "/project" None None in
  make_request "secret" (always (inl (too_many_requests None))) "GET" "/project" None None 0 [] =
  (inl (Failure "Rate limit exceeded after maximum retries"),
   [EvRequest rq; EvSleep 60; EvRequest rq; EvSleep 60; EvRequest rq; EvSleep 60; EvRequest rq]).
Proof. vm_compute. reflexivity. Qed.

(** C1 as stated fails in two ways.  The failure returned when the retries
    are used up does not carry the message "rate limit exceeded after maximum
    retries" (the code's message starts with a capital letter); and a
    sequence of 429 responses whose Retry-After is not an integer ends after
    the first attempt with a different failure, not with the rate-limit
    failure. *)
Lemma rate_limit_claim_fails_as_stated :
  fst (make_request "secret" (always (inl (too_many_requests None)))
         "GET" "/project" None None 0 []) <>
    inl (Failure "rate limit exceeded after maximum retries") /\
  make_request "secret" (always (inl (too_many_requests (Some "soon"))))
    "GET" "/project" None None 0 [] =
    (inl (Failure "Unexpected error: invalid literal for int() with base 10: 'soon'"),
     [EvRequest (build_request "secret" "GET" "/project" None None)]).
Proof.
  split.
  - intros H.
    assert (H' := f_equal
                    (fun x => match x with inl v => error_message v | inr _ => None end) H).
    vm_compute in H'. discriminate H'.
  - vm_compute. reflexivity.
Qed.

(** C7 as stated fails: an exception that is not derived from [Exception]
    is not caught.  When the task is cancelled while the HTTP call is pending,
    [client.request] raises [asyncio.CancelledError], no [except] clause
    matches, and the exception reaches the caller of [make_request]. *)
Lemma cancellation_escapes_make_request :
  make_request_in "secret" cancelled_in_flight "GET" "/project" None None 0 [] =
  (inr (BaseExc "CancelledError"),
   [EvRequest (build_request "secret" "GET" "/project" None None)]).
Proof. rewrite make_request_in_attempt. reflexivity. Qed.

(** The [async with] is outside the [try]: when the client of the first
    attempt cannot be created, the [ValueError] of [httpx.AsyncClient()]
    reaches the caller too, before any network call. *)
Example client_creation_error_escapes :
  invoke_in "secret" no_client (qase_list_projects None None) [] =
  (inr (Exc (PyException "Unknown scheme for proxy URL URL('ftp://proxy.invalid:1')")), []).
Proof. unfold invoke_in. rewrite make_request_in_attempt. reflexivity. Qed.

(** When it is the client of a retry that cannot be created, the exception
    is raised inside the [try] of the attempt that retried, which turns it
    into a failure value. *)
Example retry_creation_error_is_caught :
  let rq := build_request "secret" "GET" "/project" None None in
  make_request_in "secret" no_second_client "GET" "/project" None None 0 [] =
  (inl (Failure "Unexpected error: Too many open files"), [EvRequest rq; EvSleep 1]).
Proof. vm_compute. reflexivity. Qed.

(** C7, as it holds on the code.  In every runtime, whatever the arguments,
    the token and the history, a call of [make_request] either returns a
    normalized value, a failure [{"error": message}] with one of the five
    kinds of message or the parsed body of the success response to its last
    request, or raises an exception that its [try] block cannot catch: one
    that is not derived from [Exception], or the one raised when its own
    client was created or closed.  Against a server, where the client is
    created and closed without error and the HTTP call returns a response or
    raises an exception derived from [Exception], it always returns such a
    value. *)
Theorem make_request_contains_exceptions
    (QASE_API_TOKEN : string) (rt : runtime)
    (server : list event -> request -> response + exn)
    (method endpoint : string) (params json_data : option dict) (retries : Z)
    (t : list event) :
  let rq := build_request QASE_API_TOKEN method endpoint params json_data in
  match make_request_in QASE_API_TOKEN rt method endpoint params json_data retries t with
  | (inl v, t') =>
      (exists message,
         failure_message message /\ v = Failure message /\ error_message v = Some message) \/
      answered rt rq t' v
  | (inr x, t') =>
      (create_client rt t = Some x /\ t' = t) \/
      close_client rt t' = Some x \/
      exists name, x = BaseExc name
  end /\
  exists v t',
    make_request QASE_API_TOKEN server method endpoint params json_data retries t = (inl v, t') /\
    ((exists message,
        failure_message message /\ v = Failure message /\ error_message v = Some message) \/
     answered (calm server) rq t' v).
Proof.
  intros rq. subst rq.
  assert (Hmsg : forall v,
            (exists msg, failure_message msg /\ v = Failure msg) ->
            exists message,
              failure_message message /\ v = Failure message /\ error_message v = Some message).
  { intros v (msg & Hmsg & ->). exists msg.
    split; [exact Hmsg|]. split; [reflexivity|].
    unfold error_message, Failure. rewrite lookup_singleton_eq. reflexivity. }
  split.
  - pose proof (make_request_in_contained QASE_API_TOKEN rt method endpoint params json_data
                  retries t) as H.
    destruct (make_request_in QASE_API_TOKEN rt method endpoint params json_data retries t)
      as [[v|x] t']; cbn in H; [|exact H].
    destruct H as [H|H]; [left; apply Hmsg; exact H | right; exact H].
  - destruct (make_request_returns QASE_API_TOKEN server method endpoint params json_data
                retries t) as (v & t' & Hrun).
    exists v, t'. split; [exact Hrun|].
    pose proof (make_request_in_contained QASE_API_TOKEN (calm server) method endpoint params
                  json_data retries t) as H.
    unfold make_request in Hrun. rewrite Hrun in H. cbn in H.
    destruct H as [H|H]; [left; apply Hmsg; exact H | right; exact H].
Qed.



(** Entered with [retries = 0], the bound is four network calls. *)
Example four_network_calls_at_most : (1 + Z.to_nat (MAX_RETRIES - 0) = 4)%nat.
Proof. reflexivity. Qed.

(** * Properties of the tools *)

Section DictFacts.

Context {A : Type} `{ToValue A} `{Truthy A}.

Lemma set_if_truthy_falsy key (x : option A) (d : dict) :
  truthy x = false -> set_if_truthy key x d = d.
Proof. unfold set_if_truthy. intros ->. reflexivity. Qed.

Lemma set_if_truthy_None key (d : dict) : set_if_truthy key (None : option A) d = d.
Proof. reflexivity. Qed.

Lemma lookup_set_if_truthy_ne key key' (x : option A) (d : dict) :
  key ≠ key' -> set_if_truthy key x d !! key' = d !! key'.
Proof.
  intros Hne. unfold set_if_truthy.
  destruct (truthy x); [apply lookup_insert_ne; exact Hne | reflexivity].
Qed.

Lemma lookup_set_if_truthy_eq key (x : option A) (d : dict) :
  truthy x = true -> set_if_truthy key x d !! key = Some (to_value x).
Proof. unfold set_if_truthy. intros ->. apply lookup_insert_eq. Qed.

Lemma set_if_not_none_None key (d : dict) : set_if_not_none key (None : option A) d = d.
Proof. reflexivity. Qed.

Lemma lookup_set_if_not_none_ne key key' (x : option A) (d : dict) :
  key ≠ key' -> set_if_not_none key x d !! key' = d !! key'.
Proof.
  intros Hne. unfold set_if_not_none.
  destruct x; [apply lookup_insert_ne; exact Hne | reflexivity].
Qed.

Lemma lookup_set_if_not_none_Some key (a : A) (d : dict) :
  set_if_not_none key (Some a) d !! key = Some (to_value a).
Proof. apply lookup_insert_eq. Qed.

Lemma elem_of_unset (key k : string) (x : option A) :
  key ∈ unset k x -> key = k /\ x = None.
Proof.
  destruct x; cbn; intros Hin.
  - apply elem_of_nil in Hin. destruct Hin.
  - apply list_elem_of_singleton in Hin. auto.
Qed.

Lemma elem_of_sent_filter (key name : string) (v : value) (x : option A) :
  (key, v) ∈ sent_filter name x ->
  key = "filters[" +:+ name +:+ "]" /\ v = to_value x /\ truthy x = true.
Proof.
  unfold sent_filter. destruct (truthy x); intros Hin.
  - apply list_elem_of_singleton in Hin. injection Hin as -> ->. auto.
  - apply elem_of_nil in Hin. destruct Hin.
Qed.

(** A value stored under a guard is never [None] when the values of the
    argument's type are not. *)
Hypothesis to_value_not_none : forall a : A, to_value a ≠ VNone.

Lemma not_null_set_if_not_none key key' (x : option A) (d : dict) :
  d !! key' ≠ Some VNone -> set_if_not_none key x d !! key' ≠ Some VNone.
Proof.
  intros Hd. unfold set_if_not_none. destruct x as [a|]; [|exact Hd].
  destruct (decide (key = key')) as [->|Hne].
  - rewrite lookup_insert_eq. intros [= Ha]. exact (to_value_not_none a Ha).
  - rewrite lookup_insert_ne by exact Hne. exact Hd.
Qed.

Lemma not_null_set_if_truthy key key' (x : option A) (d : dict) :
  d !! key' ≠ Some VNone -> set_if_truthy key x d !! key' ≠ Some VNone.
Proof.
  intros Hd. unfold set_if_truthy.
  destruct x as [a|]; cbn; [|exact Hd].
  destruct (truthy a); [|exact Hd].
  destruct (decide (key = key')) as [->|Hne].
  - rewrite lookup_insert_eq. intros [= Ha]. exact (to_value_not_none a Ha).
  - rewrite lookup_insert_ne by exact Hne. exact Hd.
Qed.

End DictFacts.

Lemma not_null_insert key key' (v : value) (d : dict) :
  v ≠ VNone -> d !! key' ≠ Some VNone -> <[key := v]> d !! key' ≠ Some VNone.
Proof.
  intros Hv Hd. destruct (decide (key = key')) as [->|Hne].
  - rewrite lookup_insert_eq. congruence.
  - rewrite lookup_insert_ne by exact Hne. exact Hd.
Qed.

Lemma not_null_singleton key key' (v : value) :
  v ≠ VNone -> ({[ key := v ]} : dict) !! key' ≠ Some VNone.
Proof.
  intros Hv. destruct (decide (key = key')) as [->|Hne].
  - rewrite lookup_singleton_eq. congruence.
  - rewrite lookup_singleton_ne by exact Hne. discriminate.
Qed.

Lemma not_null_empty key' : (∅ : dict) !! key' ≠ Some VNone.
Proof. rewrite lookup_empty. discriminate. Qed.

Create HintDb tools.
#[local] Hint Unfold tool_request page
  qase_list_projects qase_get_project qase_create_project qase_list_test_cases
  qase_get_test_case qase_create_test_case qase_create_bulk_test_cases
  qase_update_test_case qase_delete_test_case qase_list_suites qase_get_suite
  qase_create_suite qase_update_suite qase_delete_suite qase_list_shared_steps
  qase_get_shared_step qase_create_shared_step qase_update_shared_step
  qase_delete_shared_step qase_list_shared_parameters qase_get_shared_parameter
  qase_create_shared_parameter qase_update_shared_parameter qase_delete_shared_parameter
  qase_list_custom_fields qase_get_custom_field qase_create_custom_field
  qase_update_custom_field qase_delete_custom_field qase_get_system_fields
  qase_list_test_plans qase_get_test_plan qase_create_test_plan qase_update_test_plan
  qase_delete_test_plan qase_list_test_runs qase_get_test_run qase_create_test_run
  qase_complete_test_run qase_delete_test_run qase_list_test_results qase_get_test_result
  qase_create_test_result qase_create_bulk_test_results qase_list_defects qase_get_defect
  qase_create_defect qase_resolve_defect qase_delete_defect qase_list_environments
  qase_get_environment qase_create_environment qase_delete_environment qase_list_milestones
  qase_get_milestone qase_create_milestone qase_delete_milestone qase_list_authors
  qase_list_users qase_get_user qase_search qase_list_attachments qase_get_attachment
  qase_delete_attachment : tools.

(** Unfold the tool of the goal down to the dict it builds. *)
Ltac open_tool :=
  autounfold with tools; unfold param, body_field;
  cbn [call_params call_json mbind option_bind].

(** Look up a key that no layer of the dict sets. *)
Ltac lookup_absent :=
  repeat first
    [ rewrite set_if_not_none_None
    | rewrite set_if_truthy_None
    | rewrite lookup_set_if_not_none_ne by discriminate
    | rewrite lookup_set_if_truthy_ne by discriminate
    | rewrite lookup_insert_ne by discriminate
    | rewrite lookup_singleton_ne by discriminate
    | rewrite lookup_empty ];
  reflexivity.

(** No layer of the dict stores [None]. *)
Ltac not_null :=
  repeat lazymatch goal with
    | |- set_if_not_none _ _ _ !! _ ≠ _ =>
        apply not_null_set_if_not_none; [intros ?; discriminate|]
    | |- set_if_truthy _ _ _ !! _ ≠ _ =>
        apply not_null_set_if_truthy; [intros ?; discriminate|]
    | |- <[_ := _]> _ !! _ ≠ _ => apply not_null_insert; [discriminate|]
    | |- {[_ := _]} !! _ ≠ _ => apply not_null_singleton; discriminate
    | |- ∅ !! _ ≠ _ => apply not_null_empty
    end.

(** Look up the key of a filter that passed its truth test. *)
Ltac lookup_sent :=
  repeat rewrite lookup_set_if_truthy_ne by discriminate;
  apply lookup_set_if_truthy_eq; assumption.

Lemma none_fields_absent (tc : tool_call) (key : string) :
  key ∈ none_fields tc ->
  param (tool_request tc) key = None /\ body_field (tool_request tc) key = None.
Proof.
  intros Hin.
  destruct tc; cbn [none_fields] in Hin; try (apply elem_of_nil in Hin; destruct Hin);
    repeat (apply elem_of_app in Hin as [Hin|Hin]);
    apply elem_of_unset in Hin as [-> ->];
    open_tool; (split; [try reflexivity; lookup_absent | try reflexivity; lookup_absent]).
Qed.

Lemma no_field_is_null (tc : tool_call) (key : string) :
  param (tool_request tc) key ≠ Some VNone /\ body_field (tool_request tc) key ≠ Some VNone.
Proof.
  destruct tc; open_tool;
    (split; [try discriminate; not_null | try discriminate; not_null]).
Qed.

Lemma sent_filters_bracketed (tc : tool_call) (key : string) (v : value) :
  (key, v) ∈ sent_filters tc -> param (tool_request tc) key = Some v.
Proof.
  intros Hin.
  destruct tc; cbn [sent_filters] in Hin; try (apply elem_of_nil in Hin; destruct Hin);
    repeat (apply elem_of_app in Hin as [Hin|Hin]);
    apply elem_of_sent_filter in Hin as (-> & -> & Htruthy);
    open_tool; lookup_sent.
Qed.

(** * The claims about the tools *)

(** C9, as it holds on the code: for every tool invocation, every optional
    argument declared with the default [None] that is left unset is absent
    from the query parameters and from the JSON body; no field of any
    outgoing request is null; and every filter argument that is sent is
    sent under its bracketed key, [filters[priority]] and the like. *)
Theorem unset_none_fields_are_not_sent (tc : tool_call) (key : string) :
  (key ∈ none_fields tc ->
   param (tool_request tc) key = None /\ body_field (tool_request tc) key = None) /\
  (param (tool_request tc) key ≠ Some VNone /\ body_field (tool_request tc) key ≠ Some VNone) /\
  (forall v, (key, v) ∈ sent_filters tc -> param (tool_request tc) key = Some v).
Proof.
  split; [apply none_fields_absent|].
  split; [apply no_field_is_null|].
  intros v. apply sent_filters_bracketed.
Qed.

Lemma unset_none_fields_are_not_sent_witness :
  let tc := QaseListTestCases "DEMO" None None (Some "high") None None None None None in
  "filters[type]" ∈ none_fields tc /\
  (param (tool_request tc) "filters[type]" = None /\
   body_field (tool_request tc) "filters[type]" = None) /\
  ("filters[priority]", VStr "high") ∈ sent_filters tc /\
  param (tool_request tc) "filters[priority]" = Some (VStr "high").
Proof.
  intros tc.
  assert (Hunset : "filters[type]" ∈ none_fields tc)
    by apply list_elem_of_here.
  assert (Hsent : ("filters[priority]", VStr "high") ∈ sent_filters tc)
    by apply list_elem_of_here.
  refine (conj Hunset (conj _ (conj Hsent _))).
  - exact (proj1 (unset_none_fields_are_not_sent tc "filters[type]") Hunset).
  - exact (proj2 (proj2 (unset_none_fields_are_not_sent tc "filters[priority]")) _ Hsent).
Defined.

(** C9 as stated fails for the optional arguments that have a default other
    than [None]: left unset, they are sent with their default.  A call of
    [qase_list_test_cases] with only the project code sends [limit=100] and
    [offset=0], and [qase_create_project] without a description sends
    ["description": ""]. *)
Lemma unset_arguments_with_defaults_are_sent :
  param (tool_request (QaseListTestCases "DEMO" None None None None None None None None))
    "limit" = Some (VInt 100) /\
  param (tool_request (QaseListTestCases "DEMO" None None None None None None None None))
    "offset" = Some (VInt 0) /\
  body_field (tool_request (QaseCreateProject "Demo" "DEMO" None None))
    "description" = Some (VStr "").
Proof. repeat split. Qed.

(** C10: a truth test drops a falsy value as it drops [None], a test against
    [None] does not.  In [qase_list_test_cases], [filters_suite_id=0] and
    [filters_search=""] give the same request as leaving the argument unset;
    in [qase_create_test_plan], [cases=[]] gives the same request as no
    [cases]; in [qase_create_test_case], [suite_id=0] is sent. *)
Theorem falsy_values_are_dropped_by_truth_tests :
  (forall project_code limit offset filters_priority filters_type filters_severity
          filters_automation filters_search,
     qase_list_test_cases project_code limit offset filters_priority filters_type
       filters_severity filters_automation (Some 0) filters_search =
     qase_list_test_cases project_code limit offset filters_priority filters_type
       filters_severity filters_automation None filters_search) /\
  (forall project_code limit offset filters_priority filters_type filters_severity
          filters_automation filters_suite_id,
     qase_list_test_cases project_code limit offset filters_priority filters_type
       filters_severity filters_automation filters_suite_id (Some "") =
     qase_list_test_cases project_code limit offset filters_priority filters_type
       filters_severity filters_automation filters_suite_id None) /\
  (forall project_code title description,
     qase_create_test_plan project_code title description (Some []) =
     qase_create_test_plan project_code title description None) /\
  (forall project_code title description preconditions postconditions severity priority
          type_id behavior automation milestone_id tags steps custom_fields,
     body_field
       (qase_create_test_case project_code title description preconditions postconditions
          severity priority type_id behavior automation (Some 0) milestone_id tags steps
          custom_fields)
       "suite_id" = Some (VInt 0)).
Proof.
  repeat split; intros.
  open_tool.
  repeat first
    [ rewrite lookup_set_if_not_none_ne by discriminate
    | rewrite lookup_set_if_truthy_ne by discriminate ].
  apply lookup_set_if_not_none_Some.
Qed.

(** * Further properties of the dispatcher *)

Section RetryFacts.

Variable QASE_API_TOKEN : string.
Variable server : list event -> request -> response + exn.
Variables (method endpoint : string) (params json_data : option dict).

#[local] Abbreviation run' :=
  (make_request QASE_API_TOKEN server method endpoint params json_data).
#[local] Abbreviation q' := (build_request QASE_API_TOKEN method endpoint params json_data).


Lemma authenticated_request :
  truthy QASE_API_TOKEN = true ->
  authenticated QASE_API_TOKEN method endpoint params json_data (EvRequest q').
Proof.
  intros Htok. cbn.
  split; [intros ->; discriminate Htok|].
  split; [apply lookup_insert_eq|].
  split; [rewrite lookup_insert_ne by discriminate; apply lookup_singleton_eq|].
  repeat split.
Qed.

Lemma authenticated_retry_trace (ds : list Z) :
  truthy QASE_API_TOKEN = true ->
  Forall (authenticated QASE_API_TOKEN method endpoint params json_data) (retry_trace q' ds).
Proof.
  intros Htok. induction ds as [|d ds IH].
  - constructor; [apply authenticated_request; exact Htok | constructor].
  - rewrite retry_trace_cons.
    constructor; [apply authenticated_request; exact Htok|].
    constructor; [exact I | exact IH].
Qed.

End RetryFacts.

(** X1: when the server answers HTTP 429 within the retry budget, each time
    with a Retry-After that is absent or a literal [int] accepts and a delay
    [asyncio.sleep] accepts, and then a success response with a JSON body,
    the call returns that body: the earlier 429 responses leave no mark on
    the value, and the trace shows one request more than waits, each wait of
    the duration the 429 indicated. *)
Theorem throttled_then_success_returns_body
    (QASE_API_TOKEN : string) (server : list event -> request -> response + exn)
    (method endpoint : string) (params json_data : option dict) (retries : Z)
    (t : list event) (delays : list Z) (r : response) (v : value) :
  let rq := build_request QASE_API_TOKEN method endpoint params json_data in
  truthy QASE_API_TOKEN = true ->
  0 <= retries ->
  throttled server rq t delays ->
  retries + Z.of_nat (length delays) <= MAX_RETRIES ->
  server (t ++ waits rq delays) rq = inl r ->
  200 <= status_code r <= 299 ->
  json r = inl v ->
  make_request QASE_API_TOKEN server method endpoint params json_data retries t =
  (inl v, t ++ retry_trace rq delays) /\
  count_requests (retry_trace rq delays) = S (length delays).
Proof.
  intros rq Htok _ Hthr Hle Hsrv [Hlo Hhi] Hjson. subst rq.
  split; [|apply count_requests_retry_trace].
  rewrite (make_request_throttled _ _ _ _ _ _ delays retries t Htok Hthr Hle).
  rewrite make_request_step, Htok, Hsrv, Hjson. cbn [negb]. cbn zeta.
  assert (H429 : (status_code r =? 429) = false) by (apply Z.eqb_neq; lia).
  rewrite H429. unfold is_success.
  apply Z.leb_le in Hlo, Hhi. rewrite Hlo, Hhi. cbn.
  rewrite retry_trace_waits, <- app_assoc. reflexivity.
Qed.

Lemma throttled_then_success_returns_body_witness :
  let server :=
    scripted [inl (too_many_requests (Some "2")); inl (too_many_requests None)] (inl created) in
  let rq := build_request "secret" "POST" "/case/DEMO" None None in
  truthy "secret" = true /\
  0 <= 0 /\
  throttled server rq [] [2; 60] /\
  0 + Z.of_nat (length [2; 60]) <= MAX_RETRIES /\
  server ([] ++ waits rq [2; 60]) rq = inl created /\
  200 <= status_code created <= 299 /\
  json created = inl (VDict {[ "result" := VDict {[ "id" := VInt 1 ]} ]}) /\
  make_request "secret" server "POST" "/case/DEMO" None None 0 [] =
  (inl (VDict {[ "result" := VDict {[ "id" := VInt 1 ]} ]}), [] ++ retry_trace rq [2; 60]) /\
  count_requests (retry_trace rq [2; 60]) = 3%nat.
Proof.
  intros server rq.
  assert (Hpos : 0 <= 0) by lia.
  assert (Hthr : throttled server rq [] [2; 60]).
  { split; [exists (too_many_requests (Some "2")); exact (conj eq_refl (conj eq_refl eq_refl))|].
    split; [reflexivity|].
    split; [exists (too_many_requests None); exact (conj eq_refl (conj eq_refl eq_refl))|].
    split; [reflexivity|].
    exact I. }
  assert (Hle : 0 + Z.of_nat (length [2; 60]) <= MAX_RETRIES) by (unfold MAX_RETRIES; simpl; lia).
  assert (Hok : 200 <= status_code created <= 299) by (simpl; lia).
  refine (conj eq_refl (conj Hpos (conj Hthr (conj Hle (conj eq_refl (conj Hok (conj eq_refl _))))))).
  exact (throttled_then_success_returns_body "secret" server "POST" "/case/DEMO" None None 0 []
           [2; 60] created _ eq_refl Hpos Hthr Hle eq_refl Hok eq_refl).
Defined.

(** X2: entered with [retries >= 0], when every attempt left is answered
    with HTTP 429, all but the last with a Retry-After that is absent or a
    literal [int] accepts and a delay [asyncio.sleep] accepts, the number of
    waits is exactly [MAX_RETRIES - retries] (none when [retries] is already
    at or past the limit), and the call then ends with the rate-limit
    failure, whatever the Retry-After of the last 429. *)
Theorem rate_limit_budget_counts_from_retries
    (QASE_API_TOKEN : string) (server : list event -> request -> response + exn)
    (method endpoint : string) (params json_data : option dict) (retries : Z)
    (t : list event) (delays : list Z) (r : response) :
  let rq := build_request QASE_API_TOKEN method endpoint params json_data in
  truthy QASE_API_TOKEN = true ->
  0 <= retries ->
  length delays = Z.to_nat (MAX_RETRIES - retries) ->
  throttled server rq t delays ->
  server (t ++ waits rq delays) rq = inl r ->
  status_code r = 429 ->
  make_request QASE_API_TOKEN server method endpoint params json_data retries t =
  (inl (Failure "Rate limit exceeded after maximum retries"), t ++ retry_trace rq delays) /\
  count_requests (retry_trace rq delays) = S (Z.to_nat (MAX_RETRIES - retries)).
Proof.
  intros rq Htok _ Hlen Hthr Hsrv H429. subst rq.
  split; [|rewrite count_requests_retry_trace, Hlen; reflexivity].
  exact (make_request_budget QASE_API_TOKEN server method endpoint params json_data retries t
           delays r Htok Hlen Hthr Hsrv H429).
Qed.

Lemma rate_limit_budget_counts_from_retries_witness :
  let server := always (inl (too_many_requests (Some "5"))) in
  let rq := build_request "secret" "GET" "/project" None None in
  truthy "secret" = true /\
  0 <= 2 /\
  length [5] = Z.to_nat (MAX_RETRIES - 2) /\
  throttled server rq [] [5] /\
  server ([] ++ waits rq [5]) rq = inl (too_many_requests (Some "5")) /\
  status_code (too_many_requests (Some "5")) = 429 /\
  make_request "secret" server "GET" "/project" None None 2 [] =
  (inl (Failure "Rate limit exceeded after maximum retries"), [] ++ retry_trace rq [5]) /\
  count_requests (retry_trace rq [5]) = S (Z.to_nat (MAX_RETRIES - 2)).
Proof.
  intros server rq.
  assert (Hpos : 0 <= 2) by lia.
  assert (Hthr : throttled server rq [] [5]).
  { split; [exists (too_many_requests (Some "5")); exact (conj eq_refl (conj eq_refl eq_refl))|].
    split; [reflexivity | exact I]. }
  refine (conj eq_refl (conj Hpos (conj eq_refl (conj Hthr (conj eq_refl (conj eq_refl _)))))).
  exact (rate_limit_budget_counts_from_retries "secret" server "GET" "/project" None None 2 []
           [5] (too_many_requests (Some "5")) eq_refl Hpos eq_refl Hthr eq_refl eq_refl).
Defined.



(** X4: every network call of a logical call is authenticated and is the same
    request: whatever the server does, each request in the events of the call
    has a non-empty token in its [Token] header, the JSON content type, the
    URL made of the base URL and the endpoint, the method, parameters and body
    given to [make_request], and the timeout 30. *)
Theorem every_request_is_authenticated
    (QASE_API_TOKEN : string) (server : list event -> request -> response + exn)
    (method endpoint : string) (params json_data : option dict) (retries : Z)
    (t : list event) :
  exists v events,
    make_request QASE_API_TOKEN server method endpoint params json_data retries t =
    (inl v, t ++ events) /\
    Forall (authenticated QASE_API_TOKEN method endpoint params json_data) events.
Proof.
  destruct (make_request_outcome QASE_API_TOKEN server method endpoint params json_data retries t)
    as (v & ds & Hrun & _ & _).
  exists v. eexists. split; [exact Hrun|].
  destruct (truthy QASE_API_TOKEN) eqn:Htok; [|constructor].
  apply authenticated_retry_trace. exact Htok.
Qed.

(** X5: a success payload is not wrapped: a success response whose JSON body is
    a dict with an "error" key gives the caller the same value as the failure
    with that message, here the transport failure. *)
Theorem success_body_can_pass_for_failure
    (QASE_API_TOKEN : string) (method endpoint : string) (params json_data : option dict)
    (retries : Z) (t : list event) (r : response) (msg : string) :
  truthy QASE_API_TOKEN = true ->
  200 <= status_code r <= 299 ->
  json r = inl (Failure ("Request error: " +:+ msg)) ->
  fst (make_request QASE_API_TOKEN (always (inl r)) method endpoint params json_data retries t) =
  fst (make_request QASE_API_TOKEN (always (inr (RequestError msg)))
         method endpoint params json_data retries t).
Proof.
  intros Htok [Hlo Hhi] Hjson.
  rewrite !make_request_step, Htok. cbn [negb]. unfold always. cbn zeta. rewrite Hjson.
  assert (H429 : (status_code r =? 429) = false) by (apply Z.eqb_neq; lia).
  rewrite H429. unfold is_success.
  apply Z.leb_le in Hlo, Hhi. rewrite Hlo, Hhi. reflexivity.
Qed.

Lemma success_body_can_pass_for_failure_witness :
  let r := {| status_code := 200; headers := ∅; text := "";
              json := inl (Failure ("Request error: " +:+ "timed out")) |} in
  truthy "secret" = true /\
  200 <= status_code r <= 299 /\
  json r = inl (Failure ("Request error: " +:+ "timed out")) /\
  fst (make_request "secret" (always (inl r)) "GET" "/project" None None 0 []) =
  fst (make_request "secret" (always (inr (RequestError "timed out")))
         "GET" "/project" None None 0 []).
Proof.
  intros r.
  assert (Hok : 200 <= status_code r <= 299) by (simpl; lia).
  refine (conj eq_refl (conj Hok (conj eq_refl _))).
  exact (success_body_can_pass_for_failure "secret" "GET" "/project" None None 0 [] r
           "timed out" eq_refl Hok eq_refl).
Defined.

(** X6: the credential is read with [os.environ.get("QASE_API_TOKEN", "")]:
    in every runtime, a tool invocation leaves the trace unchanged, that is
    makes no network call, exactly when the variable is unset, or set to the
    empty string, or the HTTP client cannot be created. *)
Theorem network_is_used_iff_token_and_client
    (environ : gmap string string) (rt : runtime) (tc : tool_call) (t : list event) :
  snd (invoke_in (load_token environ) rt (tool_request tc) t) = t <->
  (environ !! "QASE_API_TOKEN" = None \/ environ !! "QASE_API_TOKEN" = Some "" \/
   exists x, create_client rt t = Some x).
Proof.
  unfold invoke_in.
  destruct (make_request_in_trace (load_token environ) rt
              (call_method (tool_request tc)) (call_endpoint (tool_request tc))
              (call_params (tool_request tc)) (call_json (tool_request tc)) 0 t)
    as (events & -> & Hevents).
  assert (Hnil : t ++ events = t <-> events = []).
  { split; [|intros ->; apply app_nil_r].
    intros H. apply (f_equal length) in H. rewrite length_app in H.
    destruct events; [reflexivity | cbn in H; lia]. }
  rewrite Hnil, Hevents. clear Hnil Hevents.
  unfold last_events, load_token, environ_get.
  destruct (environ !! "QASE_API_TOKEN") as [[|a tok]|]; cbn.
  - split; auto.
  - destruct (create_client rt t) as [x|].
    + split; eauto.
    + split; [intros H; discriminate H|].
      intros [H|[H|[x H]]]; discriminate H.
  - split; auto.
Qed.

(** * Further properties of the tools *)

Section GuardFacts.

Context {A : Type} `{ToValue A} `{Truthy A}.

Lemma elem_of_given (key k : string) (v : value) (x : option A) :
  (key, v) ∈ given k x -> key = k /\ exists a, x = Some a /\ v = to_value a.
Proof.
  destruct x as [a|]; cbn; intros Hin.
  - apply list_elem_of_singleton in Hin. injection Hin as -> ->. eauto.
  - apply elem_of_nil in Hin. destruct Hin.
Qed.

Lemma lookup_set_if_not_none_inv key k (v : value) (x : option A) (d : dict) :
  set_if_not_none k x d !! key = Some v -> (key, v) ∈ given k x \/ d !! key = Some v.
Proof.
  unfold set_if_not_none, given. destruct x as [a|]; [|auto].
  destruct (decide (k = key)) as [->|Hne].
  - rewrite lookup_insert_eq. intros [= <-]. left. apply list_elem_of_here.
  - rewrite lookup_insert_ne by exact Hne. auto.
Qed.

Lemma elem_of_tested (key k : string) (o : option value) (x : option A) :
  (key, o) ∈ tested k x ->
  key = k /\ o = if truthy x then Some (to_value x) else None.
Proof.
  unfold tested. intros Hin. apply list_elem_of_singleton in Hin.
  injection Hin as -> ->. auto.
Qed.

End GuardFacts.

Lemma or_else_None {B} (o : option B) :
  match o with Some v => Some v | None => None end = o.
Proof. destruct o; reflexivity. Qed.

Lemma or_else_Some {B} (o o' : option B) (v : B) :
  o = Some v -> match o with Some w => Some w | None => o' end = Some v.
Proof. intros ->. reflexivity. Qed.

(** Skip the layers of the dict that set another key. *)
Ltac skip_layers :=
  repeat first
    [ rewrite lookup_set_if_not_none_ne by discriminate
    | rewrite lookup_set_if_truthy_ne by discriminate
    | rewrite lookup_insert_ne by discriminate ].

(** Look up a key that the dict literal sets. *)
Ltac lookup_literal :=
  skip_layers;
  first [ apply lookup_insert_eq | apply lookup_singleton_eq ].

(** Membership in a concatenation of table entries. *)
Ltac in_table :=
  repeat first
    [ assumption
    | apply elem_of_app; left; assumption
    | apply elem_of_app; right ].

Lemma given_fields_sent (tc : tool_call) (key : string) (v : value) :
  (key, v) ∈ given_fields tc -> body_field (tool_request tc) key = Some v.
Proof.
  intros Hin.
  destruct tc; cbn [given_fields] in Hin; try (apply elem_of_nil in Hin; destruct Hin);
    repeat (apply elem_of_app in Hin as [Hin|Hin]);
    apply elem_of_given in Hin as (-> & a & -> & ->);
    open_tool; skip_layers; apply lookup_set_if_not_none_Some.
Qed.

Lemma patch_body_fields_given (tc : tool_call) (key : string) (v : value) :
  call_method (tool_request tc) = "PATCH" ->
  body_field (tool_request tc) key = Some v ->
  (key, v) ∈ given_fields tc.
Proof.
  intros Hm Hsent.
  destruct tc; try discriminate Hm; clear Hm;
    autounfold with tools in Hsent; unfold body_field in Hsent;
    cbn [call_json mbind option_bind] in Hsent; try discriminate Hsent;
    cbn [given_fields];
    repeat (apply lookup_set_if_not_none_inv in Hsent as [Hsent|Hsent]; [in_table|]);
    rewrite lookup_empty in Hsent; discriminate Hsent.
Qed.

Lemma tested_fields_sent (tc : tool_call) (key : string) (o : option value) :
  (key, o) ∈ tested_fields tc -> field (tool_request tc) key = o.
Proof.
  intros Hin.
  destruct tc; cbn [tested_fields] in Hin; try (apply elem_of_nil in Hin; destruct Hin);
    repeat (apply elem_of_app in Hin as [Hin|Hin]);
    apply elem_of_tested in Hin as [-> ->];
    unfold field; open_tool; rewrite ?or_else_None;
    match goal with
    | |- context [truthy ?x] =>
        destruct (truthy x) eqn:Htruthy;
          [ skip_layers; first [ apply or_else_Some | idtac ];
            apply lookup_set_if_truthy_eq; exact Htruthy
          | skip_layers; rewrite set_if_truthy_falsy by exact Htruthy; lookup_absent ]
    end.
Qed.

Lemma page_fields (tc : tool_call) :
  match page_args tc with
  | Some (limit, offset) =>
      param (tool_request tc) "limit" = Some (VInt (arg limit 100)) /\
      param (tool_request tc) "offset" = Some (VInt (arg offset 0))
  | None =>
      param (tool_request tc) "limit" = None /\ param (tool_request tc) "offset" = None
  end.
Proof.
  destruct tc; cbn [page_args]; open_tool;
    (split; first [ reflexivity | lookup_literal | lookup_absent ]).
Qed.

(** X7: every field guarded by [if x is not None:] is sent as supplied, falsy
    values ([0], [""], [[]], [False]) included: for every tool invocation, an
    argument of this kind that is not [None] is in the JSON body under its
    key, with its value. *)
Theorem supplied_fields_are_sent_as_given (tc : tool_call) (key : string) (v : value) :
  (key, v) ∈ given_fields tc ->
  body_field (tool_request tc) key = Some v.
Proof. apply given_fields_sent. Qed.

Lemma supplied_fields_are_sent_as_given_witness :
  let tc := QaseUpdateCustomField "DEMO" 7 (Some "") None None (Some false) None None
              (Some []) in
  ("is_filterable", VBool false) ∈ given_fields tc /\
  body_field (tool_request tc) "is_filterable" = Some (VBool false).
Proof.
  intros tc.
  assert (Hin : ("is_filterable", VBool false) ∈ given_fields tc)
    by apply list_elem_of_further, list_elem_of_here.
  exact (conj Hin (supplied_fields_are_sent_as_given tc "is_filterable" (VBool false) Hin)).
Defined.

(** X8: the body of an update is exactly what was supplied: for every tool that
    sends PATCH, a key is in the JSON body with a value if and only if the
    corresponding argument was given (not [None]) with that value.  An update
    called with nothing to change therefore sends a body without any field. *)
Theorem patch_body_is_exactly_the_supplied_fields
    (tc : tool_call) (key : string) (v : value) :
  call_method (tool_request tc) = "PATCH" ->
  (body_field (tool_request tc) key = Some v <-> (key, v) ∈ given_fields tc).
Proof.
  intros Hm. split; [apply patch_body_fields_given; exact Hm | apply given_fields_sent].
Qed.

Lemma patch_body_is_exactly_the_supplied_fields_witness :
  let tc := QaseUpdateTestPlan "DEMO" 3 None (Some "") None in
  call_method (tool_request tc) = "PATCH" /\
  (body_field (tool_request tc) "description" = Some (VStr "") <->
   ("description", VStr "") ∈ given_fields tc).
Proof.
  intros tc.
  exact (conj eq_refl
           (patch_body_is_exactly_the_supplied_fields tc "description" (VStr "") eq_refl)).
Defined.

(** X9: every field guarded by a truth test [if x:] is sent if and only if its
    argument is truthy: in every tool, the field carries the argument when
    the argument is truthy, and is absent from the request when the argument
    is [None], [0], [""] or [[]]. *)
Theorem truth_tested_fields_are_sent_iff_truthy
    (tc : tool_call) (key : string) (o : option value) :
  (key, o) ∈ tested_fields tc ->
  field (tool_request tc) key = o.
Proof. apply tested_fields_sent. Qed.

Lemma truth_tested_fields_are_sent_iff_truthy_witness :
  let tc := QaseCreateDefect "DEMO" "Crash" "It crashes" None None None (Some []) in
  ("attachments", None) ∈ tested_fields tc /\
  field (tool_request tc) "attachments" = None.
Proof.
  intros tc.
  assert (Hin : ("attachments", None) ∈ tested_fields tc) by apply list_elem_of_here.
  exact (conj Hin (truth_tested_fields_are_sent_iff_truthy tc "attachments" None Hin)).
Defined.

(** X10: pagination: the sixteen tools that take [limit] and [offset] always send
    both as query parameters, with 100 and 0 when the caller leaves them out;
    no other tool sends a [limit] or an [offset] parameter. *)
Theorem pagination_parameters_are_always_sent (tc : tool_call) :
  match page_args tc with
  | Some (limit, offset) =>
      param (tool_request tc) "limit" = Some (VInt (arg limit 100)) /\
      param (tool_request tc) "offset" = Some (VInt (arg offset 0))
  | None =>
      param (tool_request tc) "limit" = None /\ param (tool_request tc) "offset" = None
  end.
Proof. apply page_fields. Qed.

(** X11: the shape of every tool request: the endpoint starts with a slash, and
    the method is GET without a JSON body, DELETE without query parameters
    and without a body, or POST or PATCH without query parameters. *)
Theorem tool_requests_are_well_formed (tc : tool_call) :
  let c := tool_request tc in
  (exists rest, call_endpoint c = "/" +:+ rest) /\
  ((call_method c = "GET" /\ call_json c = None) \/
   (call_method c = "DELETE" /\ call_params c = None /\ call_json c = None) \/
   ((call_method c = "POST" \/ call_method c = "PATCH") /\ call_params c = None)).
Proof.
  destruct tc; cbn [tool_request]; cbv zeta; (split; [eexists; reflexivity|]);
    first
      [ left; split; reflexivity
      | right; left; repeat split; reflexivity
      | right; right; split; [left; reflexivity | reflexivity]
      | right; right; split; [right; reflexivity | reflexivity] ].
Qed.

(** X12: path arguments are interpolated verbatim, without validation or
    escaping: a project code that ends in ["/bulk"] makes
    [qase_create_test_case] post its single-case body to the endpoint of
    [qase_create_bulk_test_cases], and a run id appended to the project code
    makes [qase_list_test_runs] address the endpoint of a single run. *)
Theorem path_arguments_are_not_escaped :
  (forall project_code title description preconditions postconditions severity priority
          type_id behavior automation suite_id milestone_id tags steps custom_fields cases,
     let single :=
       qase_create_test_case (project_code +:+ "/bulk") title description preconditions
         postconditions severity priority type_id behavior automation suite_id milestone_id
         tags steps custom_fields in
     let bulk := qase_create_bulk_test_cases project_code cases in
     call_method single = call_method bulk /\ call_endpoint single = call_endpoint bulk) /\
  (forall project_code run_id limit offset include,
     call_endpoint
       (qase_list_test_runs (project_code +:+ "/" +:+ str run_id) limit offset include) =
     call_endpoint (qase_get_test_run project_code run_id include)).
Proof.
  split; intros; cbn [call_method call_endpoint qase_create_test_case
                      qase_create_bulk_test_cases qase_list_test_runs qase_get_test_run].
  - split; reflexivity.
  - reflexivity.
Qed.
